(** * guessmygeo backend: AuthService and ActionsService

    A shallow embedding of [src/auth/auth.service.ts] and
    [src/actions/actions.service.ts].  The two services are sequences of
    repository calls against a PostgreSQL store (see [PGDriverOptions] in
    [src/constants.ts]); each [async] method becomes a computation in a
    state-and-exception monad over the [World] the service acts on: the
    [users] table, the [actions] table and the files on disk.

    A table is the list of its rows; of the constraints of the store, the
    primary keys ([username] of a user, [id] of an action) and the foreign
    key from an action to its user are enforced.  A file deletion asked
    for with [fs.unlink] is carried out when the call next awaits or has
    ended, as its callback is.
    The collaborators injected into the services ([bcrypt], [JwtService],
    [ConfigService]) are interfaces here; [UtilityLoggerService] only
    writes log lines and is left out. *)

From Stdlib Require Import String Ascii List Bool Arith ZArith Lia.
From Stdlib Require Import Sorted Permutation.
Import ListNotations.
Local Open Scope string_scope.

Set Implicit Arguments.

(** ** Exceptions *)

(** The exceptions of [@nestjs/common] the services throw, and the
    [QueryFailedError] and [TypeORMError] a repository call rejects
    with. *)
Inductive Exception : Type :=
| ConflictException (message : string)
| UnauthorizedException (message : string)
| NotFoundException (message : string)
| InternalServerErrorException (message : string)
| QueryFailedError (message : string)
| TypeORMError (message : string).

Definition message (e : Exception) : string :=
  match e with
  | ConflictException m | UnauthorizedException m | NotFoundException m
  | InternalServerErrorException m | QueryFailedError m
  | TypeORMError m => m
  end.

(** ** Entities and DTOs *)

(** Modelled from the spec: the [User] entity ([src/auth/user.entity.ts] is
    not among the sources).  Its columns are the properties the service
    reads and writes; [username] is the primary column (the service passes
    it as the id criterion of [usersRepo.update]); [avatar] is nullable. *)
Record User : Type := mkUser {
  username : string;
  pass : string;
  name : string;
  surname : string;
  email : string;
  avatar : option string
}.

Definition set_username (u : User) (v : string) : User :=
  mkUser v (pass u) (name u) (surname u) (email u) (avatar u).
Definition set_pass (u : User) (v : string) : User :=
  mkUser (username u) v (name u) (surname u) (email u) (avatar u).
Definition set_name (u : User) (v : string) : User :=
  mkUser (username u) (pass u) v (surname u) (email u) (avatar u).
Definition set_surname (u : User) (v : string) : User :=
  mkUser (username u) (pass u) (name u) v (email u) (avatar u).
Definition set_email (u : User) (v : string) : User :=
  mkUser (username u) (pass u) (name u) (surname u) v (avatar u).
Definition set_avatar (u : User) (v : option string) : User :=
  mkUser (username u) (pass u) (name u) (surname u) (email u) v.

(** [ActionType] as the test data of [actions.controller.spec.ts] uses it. *)
Inductive ActionType : Type := CLICK | SCROLL | INPUT.

(** The [Action] entity, with the properties of the literals in
    [actions.controller.spec.ts]; [user] holds the key of the owning user
    (the join column the [where] clause of [selectActions] filters on). *)
Record Action : Type := mkAction {
  id : string;
  type : ActionType;
  component : string;
  value : option string;
  url : string;
  performedAt : Z;
  user : string
}.

(** Modelled from the spec: the request DTOs of [src/auth/dto] and
    [src/actions/dto], with the properties the services destructure. *)
Record UserRegisterDTO : Type := mkUserRegisterDTO {
  reg_username : string;
  reg_pass : string;
  reg_name : string;
  reg_surname : string;
  reg_email : string
}.

Record AuthCredentialsDTO : Type := mkAuthCredentialsDTO {
  cred_username : string;
  cred_pass : string
}.

Record InfoEditDTO : Type := mkInfoEditDTO {
  edit_username : string;
  edit_name : string;
  edit_surname : string;
  edit_email : string
}.

Record PassChangeDTO : Type := mkPassChangeDTO {
  chg_pass : option string;
  chg_newPass : string
}.

Record ActionRecordDTO : Type := mkActionRecordDTO {
  rec_type : ActionType;
  rec_component : string;
  rec_value : option string;
  rec_url : string
}.

Record ActionsFilterDTO : Type := mkActionsFilterDTO {
  limit : nat;
  search : option string
}.

(** What [login] resolves to: [{ jwt }] or [{ jwt, privilege: 'admin' }]. *)
Record LoginResult : Type := mkLoginResult {
  jwt : string;
  privilege : option string
}.

(** JavaScript truthiness of a [string | null | undefined] value: the
    empty string is falsy like [null]. *)
Definition truthy (v : option string) : bool :=
  match v with
  | Some s => negb (s =? "")
  | None => false
  end.

(** ** The world and the monad *)

Record World : Type := mkWorld {
  users : list User;          (* rows of the users table *)
  actions : list Action;      (* rows of the actions table *)
  files : list string;        (* paths of the files on disk *)
  uncaught : list Exception   (* thrown inside a callback: the process ended on it *)
}.

Definition with_users (w : World) (us : list User) : World :=
  mkWorld us (actions w) (files w) (uncaught w).
Definition with_actions (w : World) (acts : list Action) : World :=
  mkWorld (users w) acts (files w) (uncaught w).

(** How a call ends: its promise resolves, or rejects, or never settles
    because the process ended on an exception nobody caught. *)
Inductive Outcome (A : Type) : Type :=
| Returned (a : A)
| Thrown (e : Exception)
| Exited (e : Exception).
Arguments Thrown {A} e.
Arguments Exited {A} e.

(** A computation over a state [S]; what it wrote before a throw stays
    written (no transaction is opened). *)
Definition Run (S A : Type) : Type := S -> Outcome A * S.

(** A method runs on a world. *)
Definition M (A : Type) : Type := Run World A.

Definition ret {S A} (a : A) : Run S A := fun s => (Returned a, s).
Definition throw {S A} (e : Exception) : Run S A := fun s => (Thrown e, s).
Definition bind {S A B} (m : Run S A) (k : A -> Run S B) : Run S B :=
  fun s => match m s with
           | (Returned a, s') => k a s'
           | (Thrown e, s') => (Thrown e, s')
           | (Exited e, s') => (Exited e, s')
           end.
Definition try_catch {S A} (m : Run S A) (handler : Exception -> Run S A)
  : Run S A :=
  fun s => match m s with
           | (Returned a, s') => (Returned a, s')
           | (Thrown e, s') => handler e s'
           | (Exited e, s') => (Exited e, s')
           end.

Declare Scope monad_scope.
Delimit Scope monad_scope with monad.
Notation "x <- m ;; k" := (bind m (fun x => k))
  (at level 61, m at next level, right associativity) : monad_scope.
Notation "m ;; k" := (bind m (fun _ => k))
  (at level 61, right associativity) : monad_scope.
Notation "'try' m 'catch' h" := (try_catch m h)
  (at level 60, m at level 59, h at level 59) : monad_scope.
Local Open Scope monad_scope.

(** ** Injected collaborators *)

(** [bcrypt]: [hash(data, rounds)] draws a fresh salt, which is an explicit
    argument here; [compare(data, encrypted)] accepts every digest [hash]
    produced from the same data.  Nothing is assumed about digests of
    other data. *)
Class Bcrypt : Type := {
  bcrypt_hash : string -> nat -> string -> string;
  bcrypt_compare : string -> string -> bool;
  bcrypt_compare_hash : forall data rounds salt,
    bcrypt_compare data (bcrypt_hash data rounds salt) = true
}.

Record JWTPayload : Type := mkJWTPayload { payload_username : string }.

(** [JwtService.sign] with the secret and expiry of the module's setup. *)
Class JwtService : Type := {
  sign : JWTPayload -> string
}.

(** The two keys [login] reads through [ConfigService.get]; both are
    required by [EnvConfigValidationSchema]. *)
Record ConfigService : Type := mkConfigService {
  SUPERUSER : string;
  SUPERUSER_PASS : string
}.

(** ** PostgreSQL [LIKE] and JavaScript string helpers *)

(** [like pattern s]: the [LIKE] operator of PostgreSQL, which TypeORM's
    [Like(pattern)] compiles to.  [%] stands for any run of characters,
    [_] for any one character, a backslash takes the next character
    literally; every other character stands for itself, case included. *)
Fixpoint like (pattern s : string) {struct pattern} : bool :=
  match pattern with
  | EmptyString => match s with EmptyString => true | String _ _ => false end
  | String c p =>
    if (c =? "%")%char then
      (fix any (t : string) : bool :=
         like p t || match t with
                     | EmptyString => false
                     | String _ t' => any t'
                     end) s
    else if (c =? "_")%char then
      match s with
      | EmptyString => false
      | String _ s' => like p s'
      end
    else if (c =? "\")%char then
      match p with
      | EmptyString => false
      | String c' p' =>
        match s with
        | EmptyString => false
        | String d s' => (c' =? d)%char && like p' s'
        end
      end
    else
      match s with
      | EmptyString => false
      | String d s' => (c =? d)%char && like p s'
      end
  end.

(** [includes s sub]: [String.prototype.includes]. *)
Fixpoint includes (s sub : string) : bool :=
  prefix sub s || match s with
                  | EmptyString => false
                  | String _ s' => includes s' sub
                  end.

Definition upper_char (c : ascii) : ascii :=
  let n := nat_of_ascii c in
  if ((97 <=? n) && (n <=? 122))%nat then ascii_of_nat (n - 32) else c.

(** [toUpperCase s]: [String.prototype.toUpperCase] on ASCII text. *)
Fixpoint toUpperCase (s : string) : string :=
  match s with
  | EmptyString => EmptyString
  | String c s' => String (upper_char c) (toUpperCase s')
  end.

(** A character [LIKE] gives no special meaning to. *)
Definition plain_char (c : ascii) : bool :=
  negb (c =? "%")%char && negb (c =? "_")%char && negb (c =? "\")%char.

Fixpoint plain (s : string) : bool :=
  match s with
  | EmptyString => true
  | String c s' => plain_char c && plain s'
  end.

(** ** Repositories *)

Definition has_username (u : string) (r : User) : bool := username r =? u.
Definition has_id (i : string) (a : Action) : bool := id a =? i.

Definition owned_by (u : string) (a : Action) : bool := user a =? u.

Definition duplicate_key : Exception :=
  QueryFailedError "duplicate key value violates unique constraint".

(** Modelled from the spec: the event table has a foreign key to the user
    table (the entities that declare it are not among the sources); the
    store refuses an action whose user has no row, and a change of a
    username that actions refer to. *)
Definition no_such_user : Exception :=
  QueryFailedError "insert or update on table violates foreign key constraint".
Definition still_referenced : Exception :=
  QueryFailedError "update or delete on table violates foreign key constraint".

(** What TypeORM's [update] and [delete] reject an empty criterion with. *)
Definition empty_criteria (method : string) : Exception :=
  TypeORMError
    ("Empty criteria(s) are not allowed for the " ++ method ++ " method.").

(** [usersRepo.findOne({ where: { username } })] *)
Definition usersRepo_findOne (u : string) : M (option User) :=
  fun w => (Returned (find (has_username u) (users w)), w).

(** [usersRepo.exist({ where: { username } })] *)
Definition usersRepo_exist (u : string) : M bool :=
  fun w => (Returned (existsb (has_username u) (users w)), w).

(** [usersRepo.insert(user)]: rejected when the primary key is taken. *)
Definition usersRepo_insert (r : User) : M unit :=
  fun w =>
    if existsb (has_username (username r)) (users w)
    then (Thrown duplicate_key, w)
    else (Returned tt, with_users w (users w ++ [r])).

(** [usersRepo.update({ username: key }, user)]: one [UPDATE] that sets
    every column of the rows keyed [key] from [user]; rejected when it
    would move a row onto a key another row holds, or away from a key that
    actions refer to. *)
Definition usersRepo_update_where (key : string) (r : User) : M unit :=
  fun w =>
    if existsb (has_username key) (users w)
       && negb (username r =? key)
       && existsb (has_username (username r)) (users w)
    then (Thrown duplicate_key, w)
    else if existsb (has_username key) (users w)
            && negb (username r =? key)
            && existsb (owned_by key) (actions w)
    then (Thrown still_referenced, w)
    else (Returned tt,
          with_users w (map (fun x => if has_username key x then r else x)
                            (users w))).

(** [usersRepo.update(key, user)], with the key as the criterion itself:
    TypeORM rejects the empty string before any statement is sent. *)
Definition usersRepo_update (key : string) (r : User) : M unit :=
  if key =? ""
  then throw (empty_criteria "update")
  else usersRepo_update_where key r.

(** [usersRepo.save(user)]: update of the row with the entity's key when
    there is one, insert otherwise. *)
Definition usersRepo_save (r : User) : M unit :=
  fun w =>
    if existsb (has_username (username r)) (users w)
    then (Returned tt,
          with_users w (map (fun x => if has_username (username r) x
                                      then r else x) (users w)))
    else (Returned tt, with_users w (users w ++ [r])).

(** [usersRepo.find({ where: { username: Like(pattern) } })] *)
Definition usersRepo_find_like (pattern : string) : M (list User) :=
  fun w => (Returned (filter (fun r => like pattern (username r)) (users w)), w).

(** A call in flight: the world, and the paths handed to [fs.unlink] whose
    deletion and callback are still to come. *)
Record Flight : Type := mkFlight {
  now : World;
  deferred : list string
}.

(** The body of a method that calls [fs.unlink].  A call starts with
    nothing deferred, so the other methods have no callback to run at
    their [await]s and stay computations on the world. *)
Definition Task (A : Type) : Type := Run Flight A.

(** [fs.unlink(path, callback)]: returns at once; the deletion is left to
    the background. *)
Definition unlink (path : string) : Task unit :=
  fun fl => (Returned tt, mkFlight (now fl) (deferred fl ++ [path])).

(** [err.message] of a failed [unlink]. *)
Definition enoent (path : string) : string :=
  "ENOENT: no such file or directory, unlink '" ++ path ++ "'".

(** The deferred deletions and their callbacks
    [(err) => { if (err) throw new InternalServerErrorException(err.message) }]
    in turn: a file that is there goes; for one that is not, the callback
    throws, nobody catches it and the process ends there. *)
Fixpoint run_callbacks (paths : list string) (w : World)
  : option Exception * World :=
  match paths with
  | [] => (None, w)
  | path :: rest =>
    if existsb (String.eqb path) (files w)
    then run_callbacks rest
           (mkWorld (users w) (actions w)
                    (filter (fun f => negb (f =? path)) (files w))
                    (uncaught w))
    else (Some (InternalServerErrorException (enoent path)),
          mkWorld (users w) (actions w) (files w)
                  (uncaught w ++ [InternalServerErrorException (enoent path)]))
  end.

(** [await m] inside such a body: the deferred callbacks run before the
    awaited call resolves; if one of them ends the process, the awaited
    call never does. *)
Definition await {A} (m : M A) : Task A :=
  fun fl =>
    match run_callbacks (deferred fl) (now fl) with
    | (Some e, w) => (Exited e, mkFlight w [])
    | (None, w) =>
      match m w with
      | (o, w') => (o, mkFlight w' [])
      end
    end.

(** A call of the method from start to end: the body starts with nothing
    deferred, and what it leaves deferred when its promise settles runs
    right after. *)
Definition complete {A} (body : Task A) : M A :=
  fun w =>
    match body (mkFlight w []) with
    | (Exited e, fl) => (Exited e, now fl)
    | (o, fl) => (o, snd (run_callbacks (deferred fl) (now fl)))
    end.

(** The handler of every [try { await repo... } catch (error)] block. *)
Definition as_internal_error {S A} (error : Exception) : Run S A :=
  throw (InternalServerErrorException (message error)).

(** ** AuthService *)

Section AuthService.

Context {bcrypt : Bcrypt} {jwtService : JwtService}.
Variable configService : ConfigService.

Definition register (userRegisterDTO : UserRegisterDTO) (salt : string)
  : M unit :=
  let username := reg_username userRegisterDTO in
  user <- try usersRepo_findOne username catch as_internal_error ;;
  match user with
  | Some _ =>
    (* username already in use *)
    throw (ConflictException ("Username " ++ username ++ " is already in use."))
  | None =>
    let hash := bcrypt_hash (reg_pass userRegisterDTO) 9 salt in
    let user := mkUser username hash (reg_name userRegisterDTO)
                       (reg_surname userRegisterDTO)
                       (reg_email userRegisterDTO) None in
    try usersRepo_insert user catch as_internal_error
  end.

Definition signJWT (username : string) : string :=
  sign (mkJWTPayload username).

Definition login (authCredentialsDTO : AuthCredentialsDTO) : M LoginResult :=
  let username := cred_username authCredentialsDTO in
  let pass_ := cred_pass authCredentialsDTO in
  user <- usersRepo_findOne username ;;
  (* registered user *)
  if match user with
     | Some u => bcrypt_compare pass_ (pass u)
     | None => false
     end
  then ret (mkLoginResult (signJWT username) None)
  else
    (* superuser login *)
    if (username =? SUPERUSER configService)
       && bcrypt_compare pass_ (SUPERUSER_PASS configService)
    then ret (mkLoginResult (signJWT username) (Some "admin"))
    else throw (UnauthorizedException "Check your credentials.").

Definition signPassResetJWT (username_ : string) : M (string * string) :=
  user <- try usersRepo_findOne username_ catch as_internal_error ;;
  match user with
  | None =>
    (* user does not exist *)
    throw (ConflictException "Provide a valid username.")
  | Some u => ret (email u, signJWT (username u))
  end.

Definition selectUsers (search_ : string) : M (list User) :=
  try usersRepo_find_like ("%" ++ search_ ++ "%") catch as_internal_error.

Definition editInfo (user_ : User) (infoEditDTO : InfoEditDTO)
  : M LoginResult :=
  let username_ := edit_username infoEditDTO in
  (* username already in use *)
  exist <- (if negb (username_ =? username user_)
            then usersRepo_exist username_
            else ret false) ;;
  let oldUser := user_ in
  (* username not already in use *)
  let user_ := if negb exist then set_username user_ username_ else user_ in
  let user_ := set_name user_ (edit_name infoEditDTO) in
  let user_ := set_surname user_ (edit_surname infoEditDTO) in
  let user_ := set_email user_ (edit_email infoEditDTO) in
  try usersRepo_update (username oldUser) user_ catch as_internal_error ;;
  (* username already in use *)
  if exist
  then throw (ConflictException
                ("Username " ++ username_ ++ " is already in use."))
  else ret (mkLoginResult (signJWT username_) None).

Definition changePass (user_ : User) (passChangeDTO : PassChangeDTO)
           (salt : string) : M unit :=
  (* password reset request *)
  match chg_pass passChangeDTO with
  | Some p =>
    if truthy (Some p) && negb (bcrypt_compare p (pass user_))
    then (* invalid current password *)
      throw (ConflictException "Invalid current password.")
    else ret tt
  | None => ret tt
  end ;;
  let hash := bcrypt_hash (chg_newPass passChangeDTO) 9 salt in
  let user_ := set_pass user_ hash in
  try usersRepo_update_where (username user_) user_ catch as_internal_error.

(** The body of [uploadAvatar], up to the point where its promise
    settles. *)
Definition uploadAvatar_task (user_ : User) (filename : string)
  : Task string :=
  (* avatar already uploaded *)
  if truthy (avatar user_)
  then
    unlink ("uploads/" ++ filename) ;;
    throw (ConflictException "Avatar has already been uploaded.")
  else
    let user_ := set_avatar user_ (Some filename) in
    try await (usersRepo_save user_) catch as_internal_error ;;
    ret filename.

Definition uploadAvatar (user_ : User) (filename : string) : M string :=
  complete (uploadAvatar_task user_ filename).

(** The body of [removeAvatar], up to the point where its promise
    settles. *)
Definition removeAvatar_task (user_ : User) : Task unit :=
  unlink ("uploads/" ++ match avatar user_ with
                        | Some f => f
                        | None => "null"
                        end) ;;
  let user_ := set_avatar user_ None in
  try await (usersRepo_save user_) catch as_internal_error.

Definition removeAvatar (user_ : User) : M unit :=
  complete (removeAvatar_task user_).

End AuthService.

(** ** ActionsService *)

(** [order: { performedAt: 'DESC' }]: rows with the latest time first; rows
    with equal times keep their table order. *)
Fixpoint insert_desc (a : Action) (l : list Action) : list Action :=
  match l with
  | [] => [a]
  | b :: l' =>
    if (performedAt b <=? performedAt a)%Z
    then a :: b :: l'
    else b :: insert_desc a l'
  end.

Definition order_desc (l : list Action) : list Action :=
  fold_right insert_desc [] l.

(** [actionsRepo.insert(action)]: the store fills in the generated [id]
    and the creation time, both explicit here; rejected when the id is
    taken or the owning user has no row. *)
Definition actionsRepo_insert (a : Action) : M unit :=
  fun w =>
    if existsb (has_id (id a)) (actions w)
    then (Thrown duplicate_key, w)
    else if negb (existsb (has_username (user a)) (users w))
    then (Thrown no_such_user, w)
    else (Returned tt, with_actions w (actions w ++ [a])).

(** The largest [LIMIT] the store takes (a [bigint]). *)
Definition max_limit : Z := 9223372036854775807.

(** The largest integer a JavaScript number holds exactly; up to it the
    [take] that reaches the query is the limit of the request. *)
Definition max_safe_integer : Z := 9007199254740991.

(** [actionsRepo.find({ where, take, order: { performedAt: 'DESC' } })]
    with [where] either [{ user: Like(pattern) }] or [{}].  TypeORM leaves
    a [take] of [0] out of the query, which then has no [LIMIT]; the store
    rejects a [LIMIT] beyond [max_limit]. *)
Definition actionsRepo_find (where_ : option string) (take : nat)
  : M (list Action) :=
  fun w =>
    let matching :=
      match where_ with
      | Some pattern => filter (fun a => like pattern (user a)) (actions w)
      | None => actions w
      end in
    if (max_limit <? Z.of_nat take)%Z
    then (Thrown (QueryFailedError "bigint out of range"), w)
    else if (take =? 0)%nat
    then (Returned (order_desc matching), w)
    else (Returned (firstn take (order_desc matching)), w).

(** [actionsRepo.delete(id)]: resolves to the number of rows removed
    ([DeleteResult.affected]); TypeORM rejects the empty string as
    criterion before any statement is sent. *)
Definition actionsRepo_delete (i : string) : M nat :=
  fun w =>
    if i =? ""
    then (Thrown (empty_criteria "delete"), w)
    else
      (Returned (length (filter (has_id i) (actions w))),
       with_actions w (filter (fun a => negb (has_id i a)) (actions w))).

Definition recordAction (user_ : User) (actionRecordDTO : ActionRecordDTO)
           (newId : string) (now : Z) : M unit :=
  let action :=
    mkAction newId (rec_type actionRecordDTO)
             (rec_component actionRecordDTO)
             (if truthy (rec_value actionRecordDTO)
              then rec_value actionRecordDTO else None)
             (rec_url actionRecordDTO) now (username user_) in
  try actionsRepo_insert action catch as_internal_error.

Definition selectActions (actionsFilterDTO : ActionsFilterDTO)
  : M (list Action) :=
  let limit_ := limit actionsFilterDTO in
  let search_ := search actionsFilterDTO in
  try actionsRepo_find
        (match search_ with
         | Some s => if truthy (Some s) then Some ("%" ++ s ++ "%") else None
         | None => None
         end)
        limit_
  catch as_internal_error.

Definition removeAction (i : string) : M bool :=
  affected <- try actionsRepo_delete i catch as_internal_error ;;
  (* nought deleted *)
  if (affected =? 0)%nat then ret false else ret true.

(** The [removeAction] that [actions.controller.spec.ts] puts in the
    service's place: it throws when no action has the id. *)
Definition mock_removeAction (i : string) : M bool :=
  fun w =>
    match find (has_id i) (actions w) with
    | Some _ =>
      (* splice(indexOf(found), 1): the first action with the id goes *)
      (Returned true,
       with_actions w
         ((fix drop_first (l : list Action) : list Action :=
             match l with
             | [] => []
             | a :: l' => if has_id i a then l' else a :: drop_first l'
             end) (actions w)))
    | None =>
      (* nought deletions made *)
      (Thrown (NotFoundException ("Action " ++ i ++ " was not found.")), w)
    end.

(** ** Predicates the statements use *)

(** The stored-user path of [login] accepts the credentials. *)
Definition stored_match {bcrypt : Bcrypt} (w : World)
           (c : AuthCredentialsDTO) : bool :=
  match find (has_username (cred_username c)) (users w) with
  | Some u => bcrypt_compare (cred_pass c) (pass u)
  | None => false
  end.

(** The credentials are the configured superuser pair. *)
Definition superuser_match {bcrypt : Bcrypt} (configService : ConfigService)
           (c : AuthCredentialsDTO) : bool :=
  (cred_username c =? SUPERUSER configService)
  && bcrypt_compare (cred_pass c) (SUPERUSER_PASS configService).

(** [s] occurs in [t], letter case ignored: the test of the stand-in
    [selectActions] of [actions.controller.spec.ts]. *)
Definition includes_ignoring_case (t s : string) : bool :=
  includes (toUpperCase t) (toUpperCase s).

(** The entity [editInfo] hands to [usersRepo.update]. *)
Definition edited (user_ : User) (dto : InfoEditDTO) (exist : bool) : User :=
  set_email
    (set_surname
       (set_name (if negb exist then set_username user_ (edit_username dto)
                  else user_)
                 (edit_name dto))
       (edit_surname dto))
    (edit_email dto).

(** The rows the [where] clause of [selectActions] lets through: all of
    them when [search] is absent or empty. *)
Definition qualifies (dto : ActionsFilterDTO) (a : Action) : bool :=
  match search dto with
  | Some s => if truthy (Some s) then like ("%" ++ s ++ "%") (user a) else true
  | None => true
  end.

(** No two rows of the users table share a username (the primary key). *)
Definition unique_usernames (w : World) : Prop :=
  NoDup (map username (users w)).

(** No two rows of the actions table share an id (the primary key). *)
Definition unique_ids (w : World) : Prop :=
  NoDup (map id (actions w)).

(** The row written under [key] by [UPDATE ... WHERE username = key]. *)
Definition replace_row (key : string) (r : User) (l : list User) : list User :=
  map (fun x => if has_username key x then r else x) l.

(** Latest first. *)
Definition newer_or_equal (a b : Action) : Prop :=
  (performedAt b <= performedAt a)%Z.

(** ** Sample collaborators and data

    A deterministic stand-in for [bcrypt] (the digest is the tagged data,
    the salt is dropped), a signer that returns the subject, and a small
    world, for running the services on concrete inputs. *)
Module Sample.

#[export] Instance bcrypt : Bcrypt := {|
  bcrypt_hash := fun data _ _ => "$2b$" ++ data;
  bcrypt_compare := fun data encrypted => encrypted =? "$2b$" ++ data;
  bcrypt_compare_hash := fun data _ _ => String.eqb_refl ("$2b$" ++ data)
|}.

#[export] Instance jwtService : JwtService := {|
  sign := fun payload => "jwt:" ++ payload_username payload
|}.

Definition configService : ConfigService :=
  mkConfigService "root" (bcrypt_hash "toor" 9 "salt").

Definition alice : User :=
  mkUser "alice" (bcrypt_hash "pw1" 9 "salt") "Alice" "Doe"
         "alice@example.com" None.

Definition bob : User :=
  mkUser "bob" (bcrypt_hash "pw2" 9 "salt") "Bob" "Roe"
         "bob@example.com" (Some "bob.png").

Definition click : Action :=
  mkAction "a1" CLICK "<button>" None "http://guessmygeo.com" 10 "alice".
Definition scroll : Action :=
  mkAction "a2" SCROLL "<section>" (Some "150")
           "http://guessmygeo.com/locations" 30 "alice".
Definition input : Action :=
  mkAction "a3" INPUT "<input>" (Some "City has an eye")
           "http://guessmygeo.com/locations" 20 "bob".

Definition empty : World := mkWorld [] [] [] [].

Definition world : World :=
  mkWorld [alice; bob] [click; scroll; input]
          ["uploads/bob.png"; "uploads/new.png"] [].

(** A user registered under the empty username, and a table with it. *)
Definition anon : User :=
  mkUser "" (bcrypt_hash "pw0" 9 "salt") "No" "Name" "anon@example.com" None.

Definition crowd : World :=
  mkWorld [alice; bob; anon] [click; scroll; input]
          ["uploads/bob.png"; "uploads/new.png"] [].

Definition carol : UserRegisterDTO :=
  mkUserRegisterDTO "carol" "pw3" "Carol" "Poe" "carol@example.com".

(** Somebody registers under the superuser's name. *)
Definition root_pw1 : UserRegisterDTO :=
  mkUserRegisterDTO "root" "pw1" "Ro" "Ot" "root@example.com".
Definition root_toor : UserRegisterDTO :=
  mkUserRegisterDTO "root" "toor" "Ro" "Ot" "root@example.com".

End Sample.

(** * Properties *)

(** ** Lookups in a table *)

Lemma existsb_find {A} (p : A -> bool) (l : list A) :
  existsb p l = match find p l with Some _ => true | None => false end.
Proof.
  induction l as [|x l IH]; simpl; [reflexivity|].
  destruct (p x); simpl; [reflexivity | exact IH].
Qed.

Lemma find_app_new {A} (p : A -> bool) (l : list A) (x : A) :
  find p l = None -> p x = true -> find p (l ++ [x]) = Some x.
Proof.
  intros Hnone Hx. induction l as [|y l IH]; simpl in *.
  - now rewrite Hx.
  - destruct (p y); [discriminate | auto].
Qed.

Lemma find_has_username (u : string) (l : list User) (r : User) :
  find (has_username u) l = Some r -> username r = u.
Proof.
  intros H. apply find_some in H. destruct H as [_ H].
  now apply String.eqb_eq in H.
Qed.

(** After [UPDATE ... WHERE username = key], a lookup of the row's key. *)
Lemma find_map_replace (key : string) (r : User) (l : list User) :
  username r = key ->
  find (has_username key)
       (map (fun x => if has_username key x then r else x) l)
  = match find (has_username key) l with Some _ => Some r | None => None end.
Proof.
  intros Hr. induction l as [|x l IH]; simpl; [reflexivity|].
  destruct (has_username key x) eqn:Hx.
  - unfold has_username at 1. rewrite Hr, String.eqb_refl. reflexivity.
  - rewrite Hx. exact IH.
Qed.

(** Rows under another key are out of the update's reach. *)
Lemma find_map_other (key k : string) (r : User) (l : list User) :
  k <> key -> username r <> k ->
  find (has_username k)
       (map (fun x => if has_username key x then r else x) l)
  = find (has_username k) l.
Proof.
  intros Hk Hr. induction l as [|x l IH]; simpl; [reflexivity|].
  destruct (has_username key x) eqn:Hx.
  - assert (has_username k r = false) as ->
        by (unfold has_username; now apply String.eqb_neq).
    assert (has_username k x = false) as ->.
    { unfold has_username in *. apply String.eqb_eq in Hx.
      apply String.eqb_neq. congruence. }
    exact IH.
  - destruct (has_username k x); [reflexivity | exact IH].
Qed.

(** ** Registration and login *)

Section AuthProperties.

Context {bcrypt : Bcrypt} {jwtService : JwtService}.
Variable configService : ConfigService.

(** What a successful [register] leaves behind. *)
Lemma register_returned (dto : UserRegisterDTO) (salt : string) (w w' : World) :
  register dto salt w = (Returned tt, w') ->
  find (has_username (reg_username dto)) (users w) = None
  /\ w' = with_users w
            (users w ++ [mkUser (reg_username dto)
                                (bcrypt_hash (reg_pass dto) 9 salt)
                                (reg_name dto) (reg_surname dto)
                                (reg_email dto) None]).
Proof.
  unfold register, bind, try_catch, usersRepo_findOne, usersRepo_insert, throw.
  simpl. destruct (find (has_username (reg_username dto)) (users w)) eqn:Hf.
  - discriminate.
  - rewrite existsb_find, Hf. intros H. inversion H. split; reflexivity.
Qed.

Lemma register_fresh (dto : UserRegisterDTO) (salt : string) (w : World) :
  find (has_username (reg_username dto)) (users w) = None ->
  register dto salt w
  = (Returned tt,
     with_users w
       (users w ++ [mkUser (reg_username dto)
                           (bcrypt_hash (reg_pass dto) 9 salt)
                           (reg_name dto) (reg_surname dto)
                           (reg_email dto) None])).
Proof.
  intros Hf.
  unfold register, bind, try_catch, usersRepo_findOne, usersRepo_insert.
  simpl. rewrite Hf, existsb_find, Hf. reflexivity.
Qed.

Lemma register_taken (dto : UserRegisterDTO) (salt : string) (w : World) (r : User) :
  find (has_username (reg_username dto)) (users w) = Some r ->
  register dto salt w
  = (Thrown (ConflictException
               ("Username " ++ reg_username dto ++ " is already in use.")), w).
Proof.
  intros Hf. unfold register, bind, try_catch, usersRepo_findOne, throw.
  simpl. rewrite Hf. reflexivity.
Qed.

(** [login] in terms of its two paths. *)
Lemma login_paths (c : AuthCredentialsDTO) (w : World) :
  login configService c w
  = if stored_match w c
    then (Returned (mkLoginResult (signJWT (cred_username c)) None), w)
    else if superuser_match configService c
         then (Returned (mkLoginResult (signJWT (cred_username c))
                                       (Some "admin")), w)
         else (Thrown (UnauthorizedException "Check your credentials."), w).
Proof.
  unfold login, stored_match, superuser_match, bind, usersRepo_findOne, ret, throw.
  simpl.
  destruct (find (has_username (cred_username c)) (users w)) as [u|];
    [destruct (bcrypt_compare (cred_pass c) (pass u))|];
    try reflexivity;
    destruct ((cred_username c =? SUPERUSER configService)
              && bcrypt_compare (cred_pass c) (SUPERUSER_PASS configService));
    reflexivity.
Qed.

(** C1, as the code has it: after a successful [register] of a username
    and password, [login] with the same pair returns a token; [login] with
    a password the stored hash rejects throws [Unauthorized], unless the
    username is the configured superuser and the password verifies against
    the configured superuser hash, in which case a token marked ['admin']
    is returned. *)
Theorem login_after_register (dto : UserRegisterDTO) (salt : string)
        (w w' : World) :
  register dto salt w = (Returned tt, w') ->
  login configService
        (mkAuthCredentialsDTO (reg_username dto) (reg_pass dto)) w'
  = (Returned (mkLoginResult (signJWT (reg_username dto)) None), w')
  /\ forall wrong : string,
      bcrypt_compare wrong (bcrypt_hash (reg_pass dto) 9 salt) = false ->
      login configService (mkAuthCredentialsDTO (reg_username dto) wrong) w'
      = if superuser_match configService
                           (mkAuthCredentialsDTO (reg_username dto) wrong)
        then (Returned (mkLoginResult (signJWT (reg_username dto))
                                      (Some "admin")), w')
        else (Thrown (UnauthorizedException "Check your credentials."), w').
Proof.
  intros Hreg. apply register_returned in Hreg. destruct Hreg as [Hf ->].
  set (u := mkUser _ _ _ _ _ _).
  assert (Hfind : find (has_username (reg_username dto))
                       (users (with_users w (users w ++ [u]))) = Some u).
  { simpl. apply find_app_new; [exact Hf|].
    unfold has_username, u. simpl. apply String.eqb_refl. }
  split.
  - rewrite login_paths. unfold stored_match. simpl cred_username.
    rewrite Hfind. simpl. rewrite bcrypt_compare_hash. reflexivity.
  - intros wrong Hwrong. rewrite login_paths. unfold stored_match.
    simpl cred_username. rewrite Hfind. simpl. rewrite Hwrong. reflexivity.
Qed.

(** C2: on a table with no record for a username, the first [register]
    returns and the second one, whatever password and profile it carries,
    throws [Conflict] and leaves the world as the first one left it, with
    a single record under the username. *)
Theorem register_twice (dto dto' : UserRegisterDTO) (salt salt' : string)
        (w : World) :
  find (has_username (reg_username dto)) (users w) = None ->
  reg_username dto' = reg_username dto ->
  exists w1 : World,
    register dto salt w = (Returned tt, w1)
    /\ register dto' salt' w1
       = (Thrown (ConflictException
                    ("Username " ++ reg_username dto ++ " is already in use.")),
          w1)
    /\ length (filter (has_username (reg_username dto)) (users w1)) = 1.
Proof.
  intros Hf Hsame. eexists. split; [apply register_fresh; exact Hf|].
  set (u := mkUser _ _ _ _ _ _).
  assert (Hu : has_username (reg_username dto) u = true)
    by (unfold has_username, u; simpl; apply String.eqb_refl).
  split.
  - rewrite <- Hsame. apply register_taken with (r := u).
    rewrite Hsame. simpl. apply find_app_new; assumption.
  - simpl. rewrite filter_app. simpl. rewrite Hu.
    rewrite length_app. simpl.
    assert (filter (has_username (reg_username dto)) (users w) = []) as ->;
      [|reflexivity].
    clear - Hf. induction (users w) as [|x l IH]; simpl in *; [reflexivity|].
    destruct (has_username (reg_username dto) x); [discriminate | auto].
Qed.

(** C3, as the code has it: a token marked ['admin'] is only ever returned
    for the configured superuser pair; on every user table whose record
    under the supplied username (if any) rejects the supplied password,
    [login] returns the marked token when the credentials are the
    configured pair and throws [Unauthorized] when they are not, the same
    on any two such tables; and a stored user whose hash accepts the
    password is matched first and gets a token without the marker, the
    configured pair included. *)
Theorem superuser_login (c : AuthCredentialsDTO) :
  (forall (w w' : World) (r : LoginResult),
      login configService c w = (Returned r, w') ->
      privilege r = Some "admin" ->
      superuser_match configService c = true)
  /\ (forall w : World,
         stored_match w c = false ->
         login configService c w
         = if superuser_match configService c
           then (Returned (mkLoginResult (signJWT (cred_username c))
                                         (Some "admin")), w)
           else (Thrown (UnauthorizedException "Check your credentials."), w))
  /\ (forall w1 w2 : World,
         stored_match w1 c = false -> stored_match w2 c = false ->
         fst (login configService c w1) = fst (login configService c w2))
  /\ (forall w : World,
         stored_match w c = true ->
         login configService c w
         = (Returned (mkLoginResult (signJWT (cred_username c)) None), w)).
Proof.
  split; [|split; [|split]]; [| | |intros w Hs; rewrite login_paths, Hs;
                                   reflexivity].
  - intros w w' r. rewrite login_paths.
    destruct (stored_match w c).
    + intros H. inversion H. simpl. discriminate.
    + destruct (superuser_match configService c); [reflexivity|discriminate].
  - intros w Hs. rewrite login_paths, Hs. reflexivity.
  - intros w1 w2 H1 H2. rewrite !login_paths, H1, H2.
    destruct (superuser_match configService c); reflexivity.
Qed.

End AuthProperties.

(** ** Profile edits, password changes and avatars *)

Section ProfileProperties.

Context {bcrypt : Bcrypt} {jwtService : JwtService}.

(** [editInfo] step by step: the existence check, then the one [UPDATE],
    which the store refuses for an empty key and for a change of a
    username that actions refer to and which never collides with another
    row, and then the outcome. *)
Lemma editInfo_run (user_ : User) (dto : InfoEditDTO) (w : World) :
  let exist := negb (edit_username dto =? username user_)
               && existsb (has_username (edit_username dto)) (users w) in
  editInfo user_ dto w
  = if username user_ =? ""
    then (Thrown (InternalServerErrorException
                    "Empty criteria(s) are not allowed for the update method."),
          w)
    else if negb (edit_username dto =? username user_)
            && negb (existsb (has_username (edit_username dto)) (users w))
            && existsb (has_username (username user_)) (users w)
            && existsb (owned_by (username user_)) (actions w)
    then (Thrown (InternalServerErrorException (message still_referenced)), w)
    else (if exist
          then Thrown (ConflictException
                         ("Username " ++ edit_username dto
                                      ++ " is already in use."))
          else Returned (mkLoginResult (signJWT (edit_username dto)) None),
          with_users w
            (map (fun x => if has_username (username user_) x
                           then edited user_ dto exist else x) (users w))).
Proof.
  unfold editInfo, bind, try_catch, usersRepo_exist, usersRepo_update,
    usersRepo_update_where, ret, throw, as_internal_error, edited.
  cbv zeta.
  destruct (username user_ =? "") eqn:Hk.
  - destruct (edit_username dto =? username user_); simpl;
      [reflexivity|].
    destruct (existsb (has_username (edit_username dto)) (users w));
      reflexivity.
  - destruct (edit_username dto =? username user_) eqn:He; simpl.
    + rewrite He. simpl. rewrite !andb_false_r. reflexivity.
    + destruct (existsb (has_username (edit_username dto)) (users w)) eqn:Hx;
        simpl.
      * rewrite String.eqb_refl. simpl. rewrite !andb_false_r. reflexivity.
      * rewrite He, Hx. simpl. rewrite andb_false_r, andb_true_r.
        destruct (existsb (has_username (username user_)) (users w)
                  && existsb (owned_by (username user_)) (actions w));
          reflexivity.
Qed.

(** C4, as the code has it: for a caller with a non-empty username, when
    the submitted username differs from the caller's and a row holds it,
    [editInfo] throws [Conflict], yet the caller's row now has the
    submitted name, surname and email under its old username; rows under
    other usernames are as before. *)
Theorem editInfo_conflict_persists (user_ stored : User) (dto : InfoEditDTO)
        (w : World) :
  username user_ <> "" ->
  edit_username dto <> username user_ ->
  existsb (has_username (edit_username dto)) (users w) = true ->
  find (has_username (username user_)) (users w) = Some stored ->
  exists w' : World,
    editInfo user_ dto w
    = (Thrown (ConflictException
                 ("Username " ++ edit_username dto ++ " is already in use.")),
       w')
    /\ find (has_username (username user_)) (users w')
       = Some (mkUser (username user_) (pass user_) (edit_name dto)
                      (edit_surname dto) (edit_email dto) (avatar user_))
    /\ forall k : string,
        k <> username user_ ->
        find (has_username k) (users w') = find (has_username k) (users w).
Proof.
  intros Hname Hne Htaken Hrow. eexists. rewrite editInfo_run.
  apply String.eqb_neq in Hname. apply String.eqb_neq in Hne.
  rewrite Hname, Hne, Htaken. simpl.
  split; [reflexivity|]. split.
  - cbn [users with_users].
    rewrite find_map_replace by reflexivity. rewrite Hrow. reflexivity.
  - intros k Hk. cbn [users with_users].
    apply find_map_other; [exact Hk|]. simpl. congruence.
Qed.

(** C10, as the code has it: for a caller with a non-empty username,
    [editInfo] throws [Conflict] exactly when the submitted username
    differs from the caller's and a row holds it; with the caller's own
    username submitted it returns a token for that username, and the
    caller's row, present in the table, takes the submitted name, surname
    and email.  For a caller whose username is empty the [UPDATE] is
    refused, and [editInfo] throws [InternalServerError] with nothing
    written. *)
Theorem editInfo_conflict_iff (user_ : User) (dto : InfoEditDTO) (w : World) :
  (username user_ <> "" ->
   ((exists m : string,
        fst (editInfo user_ dto w) = Thrown (ConflictException m))
    <-> (edit_username dto <> username user_
         /\ existsb (has_username (edit_username dto)) (users w) = true))
   /\ (edit_username dto = username user_ ->
       fst (editInfo user_ dto w)
       = Returned (mkLoginResult (signJWT (edit_username dto)) None)
       /\ forall stored : User,
           find (has_username (username user_)) (users w) = Some stored ->
           find (has_username (username user_))
                (users (snd (editInfo user_ dto w)))
           = Some (mkUser (username user_) (pass user_) (edit_name dto)
                          (edit_surname dto) (edit_email dto)
                          (avatar user_))))
  /\ (username user_ = "" ->
      editInfo user_ dto w
      = (Thrown (InternalServerErrorException
                   "Empty criteria(s) are not allowed for the update method."),
         w)).
Proof.
  rewrite editInfo_run. split.
  - intros Hname. apply String.eqb_neq in Hname. rewrite Hname.
    destruct (edit_username dto =? username user_) eqn:He; simpl.
    + apply String.eqb_eq in He. split.
      * split; [intros [m Hm]; discriminate | intros [Hne _]; contradiction].
      * intros _. split; [reflexivity|]. intros stored Hrow.
        cbn [users with_users].
        rewrite find_map_replace by (simpl; congruence).
        rewrite Hrow. unfold edited. simpl. rewrite He. reflexivity.
    + apply String.eqb_neq in He.
      destruct (existsb (has_username (edit_username dto)) (users w)); simpl.
      * split.
        -- split; [intros _; split; [exact He | reflexivity]
                  | intros _; eauto].
        -- intros Heq. contradiction.
      * split; [|intros Heq; contradiction].
        destruct (existsb (has_username (username user_)) (users w)
                  && existsb (owned_by (username user_)) (actions w));
          simpl;
          (split; [intros [m Hm]; discriminate | intros [_ H]; discriminate]).
  - intros Hname. apply String.eqb_eq in Hname. rewrite Hname. reflexivity.
Qed.

(** [changePass] once the current password, if any, is accepted. *)
Lemma changePass_accepted (user_ : User) (dto : PassChangeDTO)
      (salt : string) (w : World) :
  match chg_pass dto with
  | Some p => truthy (Some p) && negb (bcrypt_compare p (pass user_))
  | None => false
  end = false ->
  changePass user_ dto salt w
  = (Returned tt,
     with_users w
       (map (fun x => if has_username (username user_) x
                      then set_pass user_ (bcrypt_hash (chg_newPass dto) 9 salt)
                      else x) (users w))).
Proof.
  intros Hacc.
  unfold changePass, bind, try_catch, usersRepo_update_where, ret, throw.
  destruct (chg_pass dto) as [p|]; [rewrite Hacc|]; simpl;
    rewrite String.eqb_refl; simpl; rewrite !andb_false_r; reflexivity.
Qed.

(** C9, as the code has it: for a caller whose entity is the stored row,
    a supplied non-empty current password that the stored hash rejects
    makes [changePass] throw [Conflict] with the world untouched; in every
    other case (none supplied, an empty one, or one the stored hash
    accepts) it returns and the stored hash is the fresh hash of the new
    password. *)
Theorem changePass_verifies_and_persists (user_ : User) (dto : PassChangeDTO)
        (salt : string) (w : World) :
  find (has_username (username user_)) (users w) = Some user_ ->
  (forall p : string,
      chg_pass dto = Some p -> truthy (Some p) = true ->
      bcrypt_compare p (pass user_) = false ->
      changePass user_ dto salt w
      = (Thrown (ConflictException "Invalid current password."), w))
  /\ (truthy (chg_pass dto) = false
      \/ (exists p : string,
             chg_pass dto = Some p /\ bcrypt_compare p (pass user_) = true) ->
      exists w' : World,
        changePass user_ dto salt w = (Returned tt, w')
        /\ find (has_username (username user_)) (users w')
           = Some (set_pass user_ (bcrypt_hash (chg_newPass dto) 9 salt))
        /\ bcrypt_compare (chg_newPass dto)
             (match find (has_username (username user_)) (users w') with
              | Some r => pass r
              | None => ""
              end) = true).
Proof.
  intros Hrow. split.
  - intros p Hp Ht Hc.
    unfold changePass, bind, throw. rewrite Hp, Ht, Hc. reflexivity.
  - intros Hacc. eexists. split; [apply changePass_accepted|].
    + destruct Hacc as [Hf | [p [Hp Hc]]].
      * destruct (chg_pass dto) as [p|]; [|reflexivity].
        rewrite Hf. reflexivity.
      * rewrite Hp, Hc. apply andb_false_r.
    + cbn [users with_users].
      rewrite find_map_replace by reflexivity. rewrite Hrow.
      split; [reflexivity|]. simpl. apply bcrypt_compare_hash.
Qed.

(** [usersRepo.save] makes the entity the row under its key. *)
Lemma save_then_find (r : User) (w : World) :
  exists w' : World,
    usersRepo_save r w = (Returned tt, w')
    /\ find (has_username (username r)) (users w') = Some r
    /\ files w' = files w.
Proof.
  unfold usersRepo_save. rewrite existsb_find.
  destruct (find (has_username (username r)) (users w)) eqn:Hf;
    eexists; (split; [reflexivity|]); (split; [|reflexivity]);
    cbn [users with_users].
  - rewrite find_map_replace by reflexivity. rewrite Hf. reflexivity.
  - apply find_app_new; [exact Hf|]. apply String.eqb_refl.
Qed.

(** The deferred deletion of one file and its callback. *)
Lemma run_callbacks_one (path : string) (w : World) :
  users (snd (run_callbacks [path] w)) = users w
  /\ actions (snd (run_callbacks [path] w)) = actions w
  /\ ~ In path (files (snd (run_callbacks [path] w)))
  /\ (forall f : string,
         f <> path ->
         (In f (files (snd (run_callbacks [path] w))) <-> In f (files w)))
  /\ (In path (files w) ->
      fst (run_callbacks [path] w) = None
      /\ uncaught (snd (run_callbacks [path] w)) = uncaught w)
  /\ (~ In path (files w) ->
      run_callbacks [path] w
      = (Some (InternalServerErrorException (enoent path)),
         mkWorld (users w) (actions w) (files w)
                 (uncaught w ++ [InternalServerErrorException (enoent path)]))).
Proof.
  cbn [run_callbacks].
  destruct (existsb (String.eqb path) (files w)) eqn:Hx;
    cbn [fst snd users actions files uncaught].
  - split; [reflexivity|]. split; [reflexivity|]. split; [|split; [|split]].
    + intros Hin. apply filter_In in Hin. destruct Hin as [_ Hin].
      rewrite String.eqb_refl in Hin. discriminate.
    + intros f Hf. rewrite filter_In. apply String.eqb_neq in Hf.
      rewrite Hf. simpl. tauto.
    + intros _. split; reflexivity.
    + intros Hnot. exfalso. apply Hnot.
      apply existsb_exists in Hx. destruct Hx as [f [Hin Hf]].
      apply String.eqb_eq in Hf. congruence.
  - assert (Hnot : ~ In path (files w)).
    { intros Hin.
      assert (existsb (String.eqb path) (files w) = true)
        by (apply existsb_exists; exists path; split;
            [exact Hin | apply String.eqb_refl]).
      congruence. }
    split; [reflexivity|]. split; [reflexivity|]. split; [exact Hnot|].
    split; [tauto|]. split; [contradiction | reflexivity].
Qed.

(** [uploadAvatar] for a caller with an avatar: the promise rejects with
    the file's deletion still deferred, and the deletion follows. *)
Lemma uploadAvatar_conflict (user_ : User) (filename : string) (w : World) :
  truthy (avatar user_) = true ->
  uploadAvatar_task user_ filename (mkFlight w [])
  = (Thrown (ConflictException "Avatar has already been uploaded."),
     mkFlight w ["uploads/" ++ filename])
  /\ uploadAvatar user_ filename w
     = (Thrown (ConflictException "Avatar has already been uploaded."),
        snd (run_callbacks ["uploads/" ++ filename] w)).
Proof.
  intros Ht. unfold uploadAvatar, complete, uploadAvatar_task.
  rewrite Ht. split; reflexivity.
Qed.

(** [uploadAvatar] for a caller with no avatar is the [save] of the entity
    with the new avatar. *)
Lemma uploadAvatar_saves (user_ : User) (filename : string) (w w' : World) :
  truthy (avatar user_) = false ->
  usersRepo_save (set_avatar user_ (Some filename)) w = (Returned tt, w') ->
  uploadAvatar user_ filename w = (Returned filename, w').
Proof.
  intros Ht Hsave. unfold uploadAvatar, complete, uploadAvatar_task.
  rewrite Ht. unfold bind, try_catch, await, ret.
  cbn [deferred now run_callbacks]. rewrite Hsave. reflexivity.
Qed.


End ProfileProperties.

(** ** [LIKE] on small inputs *)

Example like_substring : like "%lic%" "alice" = true.
Proof. reflexivity. Qed.

Example like_letter_case : like "%LIC%" "alice" = false.
Proof. reflexivity. Qed.

Example like_underscore : like "%a_i%" "alice" = true.
Proof. reflexivity. Qed.

Example like_percent_inside : like "%a%e%" "alice" = true.
Proof. reflexivity. Qed.

Example like_escaped_underscore :
  like "%\_%" "alice" = false /\ like "%\_%" "a_b" = true.
Proof. split; reflexivity. Qed.

Example like_no_match : like "%bob%" "alice" = false.
Proof. reflexivity. Qed.

(** ** [LIKE] on a pattern with no special character *)

Lemma prefix_split (s t : string) :
  prefix s t = true <-> exists post : string, t = s ++ post.
Proof.
  revert t. induction s as [|c s IH]; intros t.
  - split; [intros _; exists t; reflexivity | intros _; now destruct t].
  - destruct t as [|d t]; simpl.
    + split; [discriminate | intros [post H]; discriminate].
    + destruct (ascii_dec c d) as [->|Hcd].
      * rewrite IH. split; intros [post H]; exists post; congruence.
      * split; [discriminate | intros [post H]; congruence].
Qed.

Lemma includes_split (t s : string) :
  includes t s = true <-> exists pre post : string, t = pre ++ s ++ post.
Proof.
  induction t as [|d t IH].
  - cbn [includes]. rewrite orb_false_r, prefix_split. split.
    + intros [post H]. exists "", post. exact H.
    + intros [pre [post H]]. destruct pre; [exists post; exact H|discriminate].
  - cbn [includes]. rewrite orb_true_iff, IH, prefix_split. split.
    + intros [[post H] | [pre [post H]]].
      * exists "", post. exact H.
      * exists (String d pre), post. simpl. congruence.
    + intros [pre [post H]]. destruct pre as [|e pre].
      * left. exists post. exact H.
      * right. exists pre, post. simpl in H. congruence.
Qed.

Lemma like_percent (t : string) : like "%" t = true.
Proof.
  induction t as [|d t IH]; [reflexivity|].
  simpl in *. exact IH.
Qed.

Lemma like_plain_then_percent (s t : string) :
  plain s = true -> like (s ++ "%") t = prefix s t.
Proof.
  revert t. induction s as [|c s IH]; intros t Hs.
  - simpl append. rewrite like_percent. now destruct t.
  - simpl in Hs. apply andb_true_iff in Hs. destruct Hs as [Hc Hs].
    unfold plain_char in Hc. rewrite !andb_true_iff, !negb_true_iff in Hc.
    destruct Hc as [[H1 H2] H3].
    simpl append. cbn [like]. rewrite H1, H2, H3.
    destruct t as [|d t]; [reflexivity|]. simpl prefix.
    destruct (ascii_dec c d) as [->|Hcd].
    + rewrite Ascii.eqb_refl. simpl. apply IH. exact Hs.
    + apply Ascii.eqb_neq in Hcd. rewrite Hcd. reflexivity.
Qed.

(** With no special character in [s], the pattern [%s%] finds the strings
    that contain [s], letter for letter. *)
Lemma like_plain_includes (s t : string) :
  plain s = true -> like ("%" ++ s ++ "%") t = includes t s.
Proof.
  intros Hs. simpl append. induction t as [|d t IH].
  - cbn [like]. simpl. rewrite like_plain_then_percent by exact Hs.
    reflexivity.
  - cbn [like includes] in *. simpl in *.
    rewrite like_plain_then_percent by exact Hs.
    rewrite IH. reflexivity.
Qed.

(** ** Ordering by [performedAt] *)

Lemma insert_desc_perm (a : Action) (l : list Action) :
  Permutation (a :: l) (insert_desc a l).
Proof.
  induction l as [|b l IH]; simpl; [reflexivity|].
  destruct (performedAt b <=? performedAt a)%Z; [reflexivity|].
  rewrite perm_swap. now apply perm_skip.
Qed.

Lemma order_desc_perm (l : list Action) : Permutation l (order_desc l).
Proof.
  induction l as [|a l IH]; simpl; [reflexivity|].
  rewrite <- insert_desc_perm. now apply perm_skip.
Qed.

Lemma insert_desc_sorted (a : Action) (l : list Action) :
  StronglySorted newer_or_equal l ->
  StronglySorted newer_or_equal (insert_desc a l).
Proof.
  induction 1 as [|b l Hl IH Hb]; simpl.
  - constructor; constructor.
  - destruct (performedAt b <=? performedAt a)%Z eqn:Hle.
    + apply Z.leb_le in Hle. constructor; [constructor; assumption|].
      constructor; [exact Hle|].
      eapply Forall_impl; [|exact Hb]. unfold newer_or_equal. intros; lia.
    + apply Z.leb_gt in Hle. constructor; [exact IH|].
      eapply Permutation_Forall; [apply insert_desc_perm|].
      constructor; [unfold newer_or_equal; lia | exact Hb].
Qed.

Example order_desc_sample :
  order_desc [Sample.click; Sample.scroll; Sample.input]
  = [Sample.scroll; Sample.input; Sample.click].
Proof. reflexivity. Qed.

Lemma order_desc_sorted (l : list Action) :
  StronglySorted newer_or_equal (order_desc l).
Proof.
  induction l as [|a l IH]; simpl; [constructor|].
  apply insert_desc_sorted. exact IH.
Qed.

Lemma sorted_app_inv {A} (R : A -> A -> Prop) (l1 l2 : list A) :
  StronglySorted R (l1 ++ l2) ->
  StronglySorted R l1
  /\ forall a b : A, In a l1 -> In b l2 -> R a b.
Proof.
  induction l1 as [|x l1 IH]; simpl; intros H.
  - split; [constructor | intros a b []].
  - inversion H as [|? ? Hs Hf]; subst. destruct (IH Hs) as [IH1 IH2].
    split.
    + constructor; [exact IH1|]. apply Forall_app in Hf. tauto.
    + intros a b [<-|Ha] Hb.
      * rewrite Forall_forall in Hf. apply Hf. apply in_or_app. now right.
      * now apply IH2.
Qed.

(** ** Searching users and actions *)

Lemma filter_all {A} (l : list A) : filter (fun _ => true) l = l.
Proof. induction l as [|x l IH]; simpl; congruence. Qed.

(** C6, as the code has it: [selectUsers] returns every row whose username
    matches the [LIKE] pattern [%search%], however many there are; for a
    search term with no [%], [_] or backslash these are exactly the rows
    whose username contains the term, letter case included. *)
Theorem selectUsers_like_pattern (search_ : string) (w : World) :
  exists found : list User,
    selectUsers search_ w = (Returned found, w)
    /\ found = filter (fun r => like ("%" ++ search_ ++ "%") (username r))
                      (users w)
    /\ (plain search_ = true ->
        forall r : User,
          In r found
          <-> In r (users w)
              /\ exists pre post : string,
                  username r = pre ++ search_ ++ post).
Proof.
  eexists. split; [reflexivity|]. split; [reflexivity|].
  intros Hs r. rewrite filter_In, like_plain_includes by exact Hs.
  rewrite includes_split. reflexivity.
Qed.

(** What [selectActions] resolves to. *)
Lemma selectActions_run (dto : ActionsFilterDTO) (w : World) :
  selectActions dto w
  = if (max_limit <? Z.of_nat (limit dto))%Z
    then (Thrown (InternalServerErrorException "bigint out of range"), w)
    else (Returned
            (if (limit dto =? 0)%nat
             then order_desc (filter (qualifies dto) (actions w))
             else firstn (limit dto)
                         (order_desc (filter (qualifies dto) (actions w)))),
          w).
Proof.
  unfold selectActions, try_catch, actionsRepo_find, qualifies.
  destruct (max_limit <? Z.of_nat (limit dto))%Z; [reflexivity|].
  destruct (limit dto =? 0)%nat;
    (destruct (search dto) as [s|]; [destruct (truthy (Some s))|]);
    rewrite ?filter_all; reflexivity.
Qed.

(** C8, as the code has it: with a limit from 1 up to the largest
    integer a JavaScript number holds exactly, [selectActions] returns the [limit] latest of the
    qualifying actions (all of them when there are fewer), latest first;
    with the limit 0 it returns all the qualifying actions, latest first;
    with a non-empty [search], the qualifying actions are those whose
    owning user matches the [LIKE] pattern [%search%], which for a term
    with no [%], [_] or backslash means that the user contains the term,
    letter case included.  A limit beyond the largest the store takes
    makes it throw [InternalServerError]. *)
Theorem selectActions_newest_first (dto : ActionsFilterDTO) (w : World) :
  ((Z.of_nat (limit dto) <= max_safe_integer)%Z ->
   exists found rest : list Action,
     selectActions dto w = (Returned found, w)
     /\ (0 < limit dto ->
         length found <= limit dto
         /\ length found = Nat.min (limit dto) (length (found ++ rest)))
     /\ (limit dto = 0 -> rest = [])
     /\ StronglySorted newer_or_equal found
     /\ Permutation (found ++ rest) (filter (qualifies dto) (actions w))
     /\ (forall a b : Action, In a found -> In b rest -> newer_or_equal a b)
     /\ (forall s : string,
            search dto = Some s -> s <> "" ->
            forall a : Action,
              In a found ->
              In a (actions w)
              /\ like ("%" ++ s ++ "%") (user a) = true
              /\ (plain s = true ->
                  exists pre post : string, user a = pre ++ s ++ post)))
  /\ ((max_limit < Z.of_nat (limit dto))%Z ->
      exists m : string,
        selectActions dto w = (Thrown (InternalServerErrorException m), w)).
Proof.
  rewrite selectActions_run. split.
  - intros Hsafe.
    assert (Hmax : (Z.of_nat (limit dto) <= max_limit)%Z)
      by (unfold max_safe_integer, max_limit in *; lia).
    apply Z.ltb_ge in Hmax. rewrite Hmax.
    set (sorted := order_desc (filter (qualifies dto) (actions w))).
    assert (Hsearch : forall found rest : list Action,
               (found ++ rest)%list = sorted ->
               forall s : string,
                 search dto = Some s -> s <> "" ->
                 forall a : Action,
                   In a found ->
                   In a (actions w)
                   /\ like ("%" ++ s ++ "%") (user a) = true
                   /\ (plain s = true ->
                       exists pre post : string, user a = pre ++ s ++ post)).
    { intros found rest Hsplit s Hs Hne a Ha.
      assert (Hin : In a (filter (qualifies dto) (actions w))).
      { eapply Permutation_in; [symmetry; apply order_desc_perm|].
        fold sorted. rewrite <- Hsplit. apply in_or_app. now left. }
      apply filter_In in Hin. destruct Hin as [Hin Hq].
      unfold qualifies in Hq. rewrite Hs in Hq. simpl in Hq.
      apply String.eqb_neq in Hne. rewrite Hne in Hq. simpl in Hq.
      split; [exact Hin|]. split; [exact Hq|].
      intros Hplain. apply includes_split.
      rewrite <- like_plain_includes by exact Hplain. exact Hq. }
    destruct (limit dto =? 0)%nat eqn:Hzero.
    + apply Nat.eqb_eq in Hzero. exists sorted, [].
      split; [reflexivity|]. split; [lia|]. split; [reflexivity|].
      split; [apply order_desc_sorted|].
      split; [rewrite app_nil_r; symmetry; apply order_desc_perm|].
      split; [intros a b _ []|].
      apply (Hsearch sorted []). apply app_nil_r.
    + apply Nat.eqb_neq in Hzero.
      exists (firstn (limit dto) sorted), (skipn (limit dto) sorted).
      assert (Hsorted : StronglySorted newer_or_equal
                          (firstn (limit dto) sorted
                           ++ skipn (limit dto) sorted)).
      { rewrite firstn_skipn. apply order_desc_sorted. }
      apply sorted_app_inv in Hsorted. destruct Hsorted as [Hfirst Hrest].
      split; [reflexivity|].
      split; [intros _; split;
              [rewrite length_firstn; apply Nat.le_min_l
              |rewrite firstn_skipn; apply length_firstn]|].
      split; [intros H; contradiction|].
      split; [exact Hfirst|].
      split; [rewrite firstn_skipn; symmetry; apply order_desc_perm|].
      split; [exact Hrest|].
      apply (Hsearch _ _ (firstn_skipn (limit dto) sorted)).
  - intros Hmax. apply Z.ltb_lt in Hmax. rewrite Hmax. eexists. reflexivity.
Qed.

(** ** Removing an action *)

(** [removeAction] on a non-empty id the table holds: the rows with the id
    go, the call returns [true], and no row has the id afterwards. *)
Lemma removeAction_existing (i : string) (w : World) (a : Action) :
  i <> "" ->
  find (has_id i) (actions w) = Some a ->
  removeAction i w
  = (Returned true,
     with_actions w (filter (fun x => negb (has_id i x)) (actions w)))
  /\ find (has_id i) (actions (snd (removeAction i w))) = None.
Proof.
  intros Hi Hf. apply String.eqb_neq in Hi.
  unfold removeAction, bind, try_catch, actionsRepo_delete, ret. rewrite Hi.
  assert (Hlen : length (filter (has_id i) (actions w)) <> 0).
  { apply find_some in Hf. destruct Hf as [Hin Hid].
    assert (In a (filter (has_id i) (actions w)))
      by (apply filter_In; split; assumption).
    destruct (filter (has_id i) (actions w)); [contradiction | discriminate]. }
  apply Nat.eqb_neq in Hlen. rewrite Hlen. split; [reflexivity|].
  cbn [snd actions with_actions].
  destruct (find (has_id i) (filter (fun x => negb (has_id i x)) (actions w)))
    eqn:Hg; [|reflexivity].
  apply find_some in Hg. destruct Hg as [Hin Hid].
  apply filter_In in Hin. destruct Hin as [_ Hn].
  rewrite Hid in Hn. discriminate.
Qed.

(** [removeAction] on a non-empty id no row has: nothing changes and the
    call returns [false]. *)
Lemma removeAction_missing (i : string) (w : World) :
  i <> "" ->
  find (has_id i) (actions w) = None ->
  removeAction i w = (Returned false, w).
Proof.
  intros Hi Hf. apply String.eqb_neq in Hi.
  unfold removeAction, bind, try_catch, actionsRepo_delete, ret. rewrite Hi.
  assert (Hnone : forall x, In x (actions w) -> has_id i x = false).
  { intros x Hx. destruct (has_id i x) eqn:Hid; [|reflexivity].
    eapply find_none in Hf; [|exact Hx]. congruence. }
  assert (Hdel : filter (has_id i) (actions w) = []).
  { clear Hf. induction (actions w) as [|x l IH]; simpl; [reflexivity|].
    rewrite (Hnone x) by now left. apply IH. intros y Hy. apply Hnone.
    now right. }
  assert (Hkeep : filter (fun x => negb (has_id i x)) (actions w) = actions w).
  { clear Hf Hdel. induction (actions w) as [|x l IH]; simpl; [reflexivity|].
    rewrite (Hnone x) by now left. simpl. f_equal. apply IH. intros y Hy.
    apply Hnone. now right. }
  rewrite Hdel, Hkeep. simpl. destruct w; reflexivity.
Qed.

(** C5: on an id that no action has, [removeAction] returns [false] and
    throws nothing, where the stand-in of [actions.controller.spec.ts]
    throws [NotFound]. *)
Theorem removeAction_missing_id_returns_false :
  find (has_id "a9") (actions Sample.world) = None
  /\ removeAction "a9" Sample.world = (Returned false, Sample.world)
  /\ mock_removeAction "a9" Sample.world
     = (Thrown (NotFoundException "Action a9 was not found."), Sample.world).
Proof. repeat split. Qed.

(** * Further properties of the services *)

(** ** Rows and keys *)

Lemma find_app_other {A} (p : A -> bool) (l : list A) (x : A) :
  p x = false -> find p (l ++ [x]) = find p l.
Proof.
  intros Hx. induction l as [|y l IH]; simpl.
  - now rewrite Hx.
  - destruct (p y); [reflexivity | exact IH].
Qed.

Lemma find_none_username (u : string) (l : list User) :
  find (has_username u) l = None <-> ~ In u (map username l).
Proof.
  induction l as [|x l IH]; simpl; [tauto|].
  unfold has_username at 1. destruct (username x =? u) eqn:Hx.
  - apply String.eqb_eq in Hx. split; [discriminate | tauto].
  - apply String.eqb_neq in Hx. rewrite IH. tauto.
Qed.

Lemma replace_row_absent (key : string) (r : User) (l : list User) :
  find (has_username key) l = None -> replace_row key r l = l.
Proof.
  unfold replace_row. induction l as [|x l IH]; simpl; [reflexivity|].
  destruct (has_username key x); [discriminate|].
  intros H. f_equal. exact (IH H).
Qed.

Lemma replace_row_same_key (key : string) (r : User) (l : list User) :
  username r = key ->
  map username (replace_row key r l) = map username l.
Proof.
  intros Hr. unfold replace_row. induction l as [|x l IH]; simpl;
    [reflexivity|].
  rewrite IH. f_equal. destruct (has_username key x) eqn:Hx; [|reflexivity].
  apply String.eqb_eq in Hx. congruence.
Qed.


Lemma find_replace_row_moved (old : string) (r : User) (l : list User)
      (stored : User) :
  find (has_username old) l = Some stored ->
  existsb (has_username (username r)) l = false ->
  find (has_username (username r)) (replace_row old r l) = Some r.
Proof.
  unfold replace_row. induction l as [|x l IH]; simpl; [discriminate|].
  intros Hold Hnew. apply orb_false_iff in Hnew. destruct Hnew as [Hx Hnew].
  destruct (has_username old x).
  - unfold has_username at 1. rewrite String.eqb_refl. reflexivity.
  - rewrite Hx. apply IH; assumption.
Qed.

Lemma find_replace_row_left (old : string) (r : User) (l : list User) :
  username r <> old ->
  find (has_username old) (replace_row old r l) = None.
Proof.
  intros Hr. unfold replace_row. induction l as [|x l IH]; simpl;
    [reflexivity|].
  destruct (has_username old x) eqn:Hx.
  - assert (has_username old r = false) as ->
        by (unfold has_username; now apply String.eqb_neq).
    exact IH.
  - rewrite Hx. exact IH.
Qed.

Lemma with_users_same (w : World) : with_users w (users w) = w.
Proof. destruct w; reflexivity. Qed.

(** ** Usernames stay unique *)

Section KeyProperties.

Context {bcrypt : Bcrypt} {jwtService : JwtService}.
Variable configService : ConfigService.

(** X1: [register] keeps usernames unique, whether it inserts the row or
    throws. *)
Theorem register_keeps_unique_usernames (dto : UserRegisterDTO)
        (salt : string) (w : World) :
  unique_usernames w ->
  unique_usernames (snd (register dto salt w)).
Proof.
  intros Hu.
  destruct (find (has_username (reg_username dto)) (users w)) eqn:Hf.
  - erewrite register_taken by exact Hf. exact Hu.
  - rewrite register_fresh by exact Hf. unfold unique_usernames in *.
    cbn [snd users with_users]. rewrite map_app. simpl.
    apply NoDup_rev in Hu. rewrite <- rev_involutive. apply NoDup_rev.
    rewrite rev_app_distr. simpl. constructor; [|exact Hu].
    rewrite <- in_rev. apply find_none_username. exact Hf.
Qed.


Lemma save_keeps_unique (r : User) (w : World) :
  unique_usernames w -> unique_usernames (snd (usersRepo_save r w)).
Proof.
  intros Hu. unfold usersRepo_save, unique_usernames in *.
  rewrite existsb_find.
  destruct (find (has_username (username r)) (users w)) eqn:Hf;
    cbn [snd users with_users].
  - fold (replace_row (username r) r (users w)).
    rewrite replace_row_same_key; [exact Hu | reflexivity].
  - rewrite map_app. simpl.
    apply NoDup_rev in Hu. rewrite <- rev_involutive. apply NoDup_rev.
    rewrite rev_app_distr. simpl. constructor; [|exact Hu].
    rewrite <- in_rev. apply find_none_username. exact Hf.
Qed.

(** [removeAvatar] from start to end: the deletion comes first, at the
    [await], and the [save] only if the process is still there. *)
Lemma removeAvatar_run (user_ : User) (w : World) :
  removeAvatar user_ w
  = match run_callbacks ["uploads/" ++ match avatar user_ with
                                       | Some f => f
                                       | None => "null"
                                       end] w with
    | (Some e, w1) => (Exited e, w1)
    | (None, w1) => usersRepo_save (set_avatar user_ None) w1
    end.
Proof.
  unfold removeAvatar, complete, removeAvatar_task, bind, unlink, try_catch,
    await.
  cbn [deferred now app].
  destruct (run_callbacks _ w) as [[e|] w1]; [reflexivity|].
  unfold usersRepo_save.
  destruct (existsb (has_username (username (set_avatar user_ None)))
                    (users w1)); reflexivity.
Qed.

(** X3: [changePass], [uploadAvatar] and [removeAvatar] keep usernames
    unique. *)
Theorem password_and_avatar_keep_unique_usernames (user_ : User)
        (dto : PassChangeDTO) (salt filename : string) (w : World) :
  unique_usernames w ->
  unique_usernames (snd (changePass user_ dto salt w))
  /\ unique_usernames (snd (uploadAvatar user_ filename w))
  /\ unique_usernames (snd (removeAvatar user_ w)).
Proof.
  intros Hu. split; [|split].
  - destruct (match chg_pass dto with
              | Some p => truthy (Some p) && negb (bcrypt_compare p (pass user_))
              | None => false
              end) eqn:Hg.
    + unfold changePass, bind, throw.
      destruct (chg_pass dto) as [p|]; [|discriminate].
      rewrite Hg. exact Hu.
    + rewrite changePass_accepted by exact Hg. unfold unique_usernames in *.
      cbn [snd users with_users].
      fold (replace_row (username user_)
              (set_pass user_ (bcrypt_hash (chg_newPass dto) 9 salt))
              (users w)).
      rewrite replace_row_same_key; [exact Hu | reflexivity].
  - destruct (truthy (avatar user_)) eqn:Ht.
    + destruct (uploadAvatar_conflict user_ filename w Ht) as [_ Hrun].
      rewrite Hrun. cbn [snd]. unfold unique_usernames in *.
      destruct (run_callbacks_one ("uploads/" ++ filename) w) as [Hs _].
      rewrite Hs. exact Hu.
    + pose proof (save_keeps_unique (set_avatar user_ (Some filename)) Hu)
        as Hsave.
      destruct (save_then_find (set_avatar user_ (Some filename)) w)
        as [w' [Hrun _]].
      rewrite (@uploadAvatar_saves user_ filename w w' Ht Hrun).
      rewrite Hrun in Hsave. exact Hsave.
  - rewrite removeAvatar_run.
    set (path := "uploads/" ++ match avatar user_ with
                               | Some f => f
                               | None => "null"
                               end).
    destruct (run_callbacks_one path w) as [Hs _].
    destruct (run_callbacks [path] w) as [[e|] w1]; cbn [snd] in *.
    + unfold unique_usernames in *. rewrite Hs. exact Hu.
    + apply save_keeps_unique. unfold unique_usernames in *.
      rewrite Hs. exact Hu.
Qed.

End KeyProperties.

(** ** How the AuthService methods compose *)

Section AuthComposition.

Context {bcrypt : Bcrypt} {jwtService : JwtService}.
Variable configService : ConfigService.

(** The outcome of [login], which the table decides through the
    stored-user path only. *)
Lemma login_outcome (c : AuthCredentialsDTO) (w : World) :
  fst (login configService c w)
  = if stored_match w c
    then Returned (mkLoginResult (signJWT (cred_username c)) None)
    else if superuser_match configService c
         then Returned (mkLoginResult (signJWT (cred_username c))
                                      (Some "admin"))
         else Thrown (UnauthorizedException "Check your credentials.").
Proof.
  rewrite login_paths. destruct (stored_match w c); [reflexivity|].
  destruct (superuser_match configService c); reflexivity.
Qed.

(** X4: a [register], successful or not, changes nothing for a [login]
    under another username. *)
Theorem register_leaves_other_logins (dto : UserRegisterDTO) (salt : string)
        (c : AuthCredentialsDTO) (w : World) :
  cred_username c <> reg_username dto ->
  fst (login configService c (snd (register dto salt w)))
  = fst (login configService c w).
Proof.
  intros Hne.
  destruct (find (has_username (reg_username dto)) (users w)) eqn:Hf.
  - erewrite register_taken by exact Hf. reflexivity.
  - rewrite register_fresh by exact Hf. cbn [snd].
    rewrite !login_outcome. unfold stored_match. cbn [users with_users].
    rewrite find_app_other; [reflexivity|].
    unfold has_username. simpl. apply String.eqb_neq. congruence.
Qed.

(** X5: [signPassResetJWT] throws [Conflict] for a username with no row;
    after a successful [register] it returns the registered email with the
    very token a [login] of that user returns. *)
Theorem signPassResetJWT_after_register (dto : UserRegisterDTO)
        (salt : string) (w w' : World) :
  register dto salt w = (Returned tt, w') ->
  signPassResetJWT (reg_username dto) w
  = (Thrown (ConflictException "Provide a valid username."), w)
  /\ exists token : string,
      signPassResetJWT (reg_username dto) w'
      = (Returned (reg_email dto, token), w')
      /\ login configService
               (mkAuthCredentialsDTO (reg_username dto) (reg_pass dto)) w'
         = (Returned (mkLoginResult token None), w').
Proof.
  intros Hreg. apply register_returned in Hreg. destruct Hreg as [Hf ->].
  set (u := mkUser _ _ _ _ _ _).
  assert (Hfind : find (has_username (reg_username dto)) (users w ++ [u])
                  = Some u).
  { apply find_app_new; [exact Hf|]. apply String.eqb_refl. }
  split; [|exists (signJWT (reg_username dto)); split].
  - unfold signPassResetJWT, bind, try_catch, usersRepo_findOne, throw.
    rewrite Hf. reflexivity.
  - unfold signPassResetJWT, bind, try_catch, usersRepo_findOne, ret.
    cbn [users with_users]. rewrite Hfind. reflexivity.
  - rewrite login_paths. unfold stored_match. cbn [users with_users].
    simpl cred_username. rewrite Hfind. simpl.
    rewrite bcrypt_compare_hash. reflexivity.
Qed.

(** X6: [editInfo] with a free username moves the caller's row, for a
    caller with a non-empty username who owns no action (an empty
    criterion or a row that actions refer to may be refused by the store):
    it returns a token for the new username, the row is found under the
    new username with the caller's hash and avatar and the submitted name,
    surname and email, nothing is found under the old username, rows under
    other usernames are as before, and a password the caller's hash accepts
    logs in under the new username. *)
Theorem editInfo_moves_row (user_ stored : User) (dto : InfoEditDTO)
        (w : World) :
  username user_ <> "" ->
  (forall a : Action, In a (actions w) -> user a <> username user_) ->
  edit_username dto <> username user_ ->
  existsb (has_username (edit_username dto)) (users w) = false ->
  find (has_username (username user_)) (users w) = Some stored ->
  exists w' : World,
    editInfo user_ dto w
    = (Returned (mkLoginResult (signJWT (edit_username dto)) None), w')
    /\ find (has_username (edit_username dto)) (users w')
       = Some (mkUser (edit_username dto) (pass user_) (edit_name dto)
                      (edit_surname dto) (edit_email dto) (avatar user_))
    /\ find (has_username (username user_)) (users w') = None
    /\ (forall k : string,
           k <> username user_ -> k <> edit_username dto ->
           find (has_username k) (users w') = find (has_username k) (users w))
    /\ (forall p : string,
           bcrypt_compare p (pass user_) = true ->
           login configService (mkAuthCredentialsDTO (edit_username dto) p) w'
           = (Returned (mkLoginResult (signJWT (edit_username dto)) None), w')).
Proof.
  intros Hname Hown Hne Hfree Hrow. eexists. rewrite editInfo_run.
  pose proof Hne as Hneb. apply String.eqb_neq in Hneb.
  apply String.eqb_neq in Hname.
  assert (Hnone : existsb (owned_by (username user_)) (actions w) = false).
  { destruct (existsb (owned_by (username user_)) (actions w)) eqn:Hx;
      [|reflexivity].
    apply existsb_exists in Hx. destruct Hx as [a [Hin Ha]].
    apply String.eqb_eq in Ha. exfalso. exact (Hown a Hin Ha). }
  rewrite Hname, Hneb, Hfree, Hnone. rewrite andb_false_r.
  simpl negb. simpl andb. cbv iota.
  split; [reflexivity|]. cbn [users with_users].
  fold (replace_row (username user_) (edited user_ dto false) (users w)).
  assert (Hmoved : find (has_username (edit_username dto))
                     (replace_row (username user_) (edited user_ dto false)
                                  (users w))
                   = Some (edited user_ dto false)).
  { apply (@find_replace_row_moved (username user_) (edited user_ dto false)
             (users w) stored Hrow). exact Hfree. }
  split; [exact Hmoved|]. split; [|split].
  - apply find_replace_row_left. simpl. exact Hne.
  - intros k Hk1 Hk2. apply find_map_other; [exact Hk1|]. simpl. congruence.
  - intros p Hp. rewrite login_paths. unfold stored_match.
    cbn [users with_users cred_username cred_pass].
    fold (replace_row (username user_) (edited user_ dto false) (users w)).
    rewrite Hmoved. simpl. rewrite Hp. reflexivity.
Qed.

(** What a successful [changePass] leaves behind. *)
Lemma changePass_returned (user_ : User) (dto : PassChangeDTO)
      (salt : string) (w w' : World) :
  changePass user_ dto salt w = (Returned tt, w') ->
  w' = with_users w
         (replace_row (username user_)
            (set_pass user_ (bcrypt_hash (chg_newPass dto) 9 salt))
            (users w)).
Proof.
  destruct (match chg_pass dto with
            | Some p => truthy (Some p) && negb (bcrypt_compare p (pass user_))
            | None => false
            end) eqn:Hg.
  - unfold changePass, bind, throw.
    destruct (chg_pass dto) as [p|]; [|discriminate].
    rewrite Hg. discriminate.
  - rewrite changePass_accepted by exact Hg. intros H. inversion H.
    reflexivity.
Qed.

(** X7: after a [changePass] that returned, for a caller with a row in the
    table, [login] with the new password returns a token; a password the
    new hash rejects no longer passes as the stored user; and a [login]
    under any other username goes as before. *)
Theorem changePass_then_login (user_ stored : User) (dto : PassChangeDTO)
        (salt : string) (w w' : World) :
  find (has_username (username user_)) (users w) = Some stored ->
  changePass user_ dto salt w = (Returned tt, w') ->
  login configService
        (mkAuthCredentialsDTO (username user_) (chg_newPass dto)) w'
  = (Returned (mkLoginResult (signJWT (username user_)) None), w')
  /\ (forall old : string,
         bcrypt_compare old (bcrypt_hash (chg_newPass dto) 9 salt) = false ->
         stored_match w' (mkAuthCredentialsDTO (username user_) old) = false)
  /\ (forall c : AuthCredentialsDTO,
         cred_username c <> username user_ ->
         fst (login configService c w') = fst (login configService c w)).
Proof.
  intros Hrow Hrun. apply changePass_returned in Hrun. subst w'.
  set (r := set_pass user_ (bcrypt_hash (chg_newPass dto) 9 salt)).
  assert (Hfind : find (has_username (username user_))
                       (replace_row (username user_) r (users w)) = Some r).
  { unfold replace_row. rewrite find_map_replace by reflexivity.
    rewrite Hrow. reflexivity. }
  split; [|split].
  - rewrite login_paths. unfold stored_match.
    cbn [users with_users cred_username cred_pass]. rewrite Hfind.
    simpl. rewrite bcrypt_compare_hash. reflexivity.
  - intros old Hold. unfold stored_match.
    cbn [users with_users cred_username cred_pass]. rewrite Hfind.
    exact Hold.
  - intros c Hc. rewrite !login_outcome. unfold stored_match.
    cbn [users with_users]. unfold replace_row.
    rewrite find_map_other by (simpl; congruence). reflexivity.
Qed.

(** X8: for a caller whose row is no longer in the table, [changePass] and
    [editInfo] write nothing (the [UPDATE] matches no row) and still end
    as they would otherwise, while [uploadAvatar] writes the caller's
    entity back as a new row. *)
Theorem caller_without_row (user_ : User) (w : World) :
  find (has_username (username user_)) (users w) = None ->
  (forall (dto : PassChangeDTO) (salt : string),
      snd (changePass user_ dto salt w) = w)
  /\ (forall dto : InfoEditDTO, snd (editInfo user_ dto w) = w)
  /\ (forall filename : string,
         truthy (avatar user_) = false ->
         uploadAvatar user_ filename w
         = (Returned filename,
            with_users w (users w ++ [set_avatar user_ (Some filename)]))).
Proof.
  intros Hnone. split; [|split].
  - intros dto salt.
    destruct (match chg_pass dto with
              | Some p => truthy (Some p) && negb (bcrypt_compare p (pass user_))
              | None => false
              end) eqn:Hg.
    + unfold changePass, bind, throw.
      destruct (chg_pass dto) as [p|]; [|discriminate].
      rewrite Hg. reflexivity.
    + rewrite changePass_accepted by exact Hg. cbn [snd].
      fold (replace_row (username user_)
              (set_pass user_ (bcrypt_hash (chg_newPass dto) 9 salt))
              (users w)).
      rewrite replace_row_absent by exact Hnone. apply with_users_same.
  - intros dto. rewrite editInfo_run.
    destruct (username user_ =? ""); [reflexivity|].
    destruct (negb (edit_username dto =? username user_)
              && negb (existsb (has_username (edit_username dto)) (users w))
              && existsb (has_username (username user_)) (users w)
              && existsb (owned_by (username user_)) (actions w));
      [reflexivity|].
    cbn [snd].
    fold (replace_row (username user_)
            (edited user_ dto
               (negb (edit_username dto =? username user_)
                && existsb (has_username (edit_username dto)) (users w)))
            (users w)).
    rewrite replace_row_absent by exact Hnone. apply with_users_same.
  - intros filename Ht. apply uploadAvatar_saves; [exact Ht|].
    unfold usersRepo_save. rewrite existsb_find.
    cbn [username set_avatar]. rewrite Hnone. reflexivity.
Qed.

End AuthComposition.

(** ** Avatars and the files on disk *)

(** X9: a first [uploadAvatar], for a caller with no avatar and with a
    non-empty file name, returns and stores the name; a second one by the
    caller as stored then throws [Conflict], removes the second file and
    leaves the users table as the first one left it. *)
Theorem uploadAvatar_twice (user_ : User) (first second : string)
        (w : World) :
  truthy (avatar user_) = false ->
  first <> "" ->
  exists w1 w2 : World,
    uploadAvatar user_ first w = (Returned first, w1)
    /\ find (has_username (username user_)) (users w1)
       = Some (set_avatar user_ (Some first))
    /\ uploadAvatar (set_avatar user_ (Some first)) second w1
       = (Thrown (ConflictException "Avatar has already been uploaded."), w2)
    /\ ~ In ("uploads/" ++ second) (files w2)
    /\ users w2 = users w1.
Proof.
  intros Hnone Hfirst.
  destruct (save_then_find (set_avatar user_ (Some first)) w)
    as [w1 [Hsave [Hfind _]]].
  assert (Hset : truthy (avatar (set_avatar user_ (Some first))) = true).
  { cbn [avatar set_avatar truthy]. apply String.eqb_neq in Hfirst.
    rewrite Hfirst. reflexivity. }
  destruct (uploadAvatar_conflict (set_avatar user_ (Some first)) second w1
              Hset) as [_ Hrun].
  destruct (run_callbacks_one ("uploads/" ++ second) w1)
    as [Husers [_ [Hgone _]]].
  exists w1, (snd (run_callbacks ["uploads/" ++ second] w1)).
  split; [apply uploadAvatar_saves; assumption|].
  split; [exact Hfind|]. split; [exact Hrun|].
  split; [exact Hgone | exact Husers].
Qed.


(** X11: upload, remove, upload again, with two different files of which
    the first is on disk: for a caller with no avatar the three calls
    return in turn, the row ends with the second file as avatar, and the
    first file is not on disk. *)
Theorem upload_remove_upload (user_ : User) (first second : string)
        (w : World) :
  truthy (avatar user_) = false ->
  first <> second ->
  In ("uploads/" ++ first) (files w) ->
  exists w1 w2 w3 : World,
    uploadAvatar user_ first w = (Returned first, w1)
    /\ removeAvatar (set_avatar user_ (Some first)) w1 = (Returned tt, w2)
    /\ uploadAvatar (set_avatar user_ None) second w2 = (Returned second, w3)
    /\ find (has_username (username user_)) (users w3)
       = Some (mkUser (username user_) (pass user_) (name user_)
                      (surname user_) (email user_) (Some second))
    /\ ~ In ("uploads/" ++ first) (files w3).
Proof.
  intros Hnone Hdiff Hdisk.
  destruct (save_then_find (set_avatar user_ (Some first)) w)
    as [w1 [Hsave1 [_ Hfiles1]]].
  assert (Hdisk1 : In ("uploads/" ++ first) (files w1))
    by (rewrite Hfiles1; exact Hdisk).
  destruct (run_callbacks_one ("uploads/" ++ first) w1)
    as [_ [_ [Hgone [_ [Hthere _]]]]].
  destruct (Hthere Hdisk1) as [Hok _].
  destruct (run_callbacks ["uploads/" ++ first] w1) as [o wu] eqn:Hcb.
  cbn [fst snd] in *. subst o.
  destruct (save_then_find (set_avatar user_ None) wu)
    as [w2 [Hsave2 [_ Hfiles2]]].
  destruct (save_then_find (set_avatar user_ (Some second)) w2)
    as [w3 [Hsave3 [Hfind3 Hfiles3]]].
  exists w1, w2, w3. split; [|split; [|split; [|split]]].
  - apply uploadAvatar_saves; assumption.
  - rewrite removeAvatar_run. cbn [avatar set_avatar]. rewrite Hcb.
    exact Hsave2.
  - apply uploadAvatar_saves; [reflexivity|]. exact Hsave3.
  - exact Hfind3.
  - rewrite Hfiles3, Hfiles2. exact Hgone.
Qed.

(** ** Recording, listing and removing actions *)

Lemma affected_zero (i : string) (l : list Action) :
  (length (filter (has_id i) l) =? 0)%nat = negb (existsb (has_id i) l).
Proof.
  induction l as [|a l IH]; simpl; [reflexivity|].
  destruct (has_id i a); simpl; [reflexivity | exact IH].
Qed.

Lemma find_after_delete (i : string) (l : list Action) :
  find (has_id i) (filter (fun a => negb (has_id i a)) l) = None.
Proof.
  induction l as [|a l IH]; simpl; [reflexivity|].
  destruct (has_id i a) eqn:Ha; simpl; [exact IH|].
  rewrite Ha. exact IH.
Qed.

Lemma find_other_after_delete (i j : string) (l : list Action) :
  j <> i ->
  find (has_id j) (filter (fun a => negb (has_id i a)) l)
  = find (has_id j) l.
Proof.
  intros Hji. induction l as [|a l IH]; simpl; [reflexivity|].
  destruct (has_id i a) eqn:Ha; simpl.
  - assert (has_id j a = false) as ->; [|exact IH].
    unfold has_id in *. apply String.eqb_eq in Ha. apply String.eqb_neq.
    congruence.
  - destruct (has_id j a); [reflexivity | exact IH].
Qed.

Lemma delete_absent (i : string) (l : list Action) :
  find (has_id i) l = None ->
  filter (fun a => negb (has_id i a)) l = l.
Proof.
  induction l as [|a l IH]; simpl; [reflexivity|].
  destruct (has_id i a); [discriminate|]. simpl. intros H. f_equal. auto.
Qed.

Lemma find_none_id (i : string) (l : list Action) :
  find (has_id i) l = None <-> ~ In i (map id l).
Proof.
  induction l as [|a l IH]; simpl; [tauto|].
  unfold has_id at 1. destruct (id a =? i) eqn:Ha.
  - apply String.eqb_eq in Ha. split; [discriminate | tauto].
  - apply String.eqb_neq in Ha. rewrite IH. tauto.
Qed.

Lemma with_actions_same (w : World) : with_actions w (actions w) = w.
Proof. destruct w; reflexivity. Qed.

(** The action [recordAction] builds, for a caller with a row. *)
Lemma recordAction_fresh (user_ : User) (dto : ActionRecordDTO)
      (newId : string) (now : Z) (w : World) :
  existsb (has_username (username user_)) (users w) = true ->
  find (has_id newId) (actions w) = None ->
  recordAction user_ dto newId now w
  = (Returned tt,
     with_actions w
       (actions w ++ [mkAction newId (rec_type dto) (rec_component dto)
                               (if truthy (rec_value dto)
                                then rec_value dto else None)
                               (rec_url dto) now (username user_)])).
Proof.
  intros Hrow Hf. unfold recordAction, try_catch, actionsRepo_insert.
  cbn [id user]. rewrite existsb_find, Hf, Hrow. reflexivity.
Qed.

(** A row later than all the others comes first. *)
Lemma order_desc_latest_last (a : Action) (l : list Action) :
  (forall b : Action, In b l -> (performedAt b < performedAt a)%Z) ->
  order_desc (l ++ [a]) = a :: order_desc l.
Proof.
  induction l as [|x l IH]; intros Hlt; [reflexivity|].
  change (order_desc ((x :: l) ++ [a]))
    with (insert_desc x (order_desc (l ++ [a]))).
  rewrite IH by (intros b Hb; apply Hlt; now right).
  assert (Hx : (performedAt x < performedAt a)%Z) by (apply Hlt; now left).
  apply Z.leb_gt in Hx. cbn [insert_desc]. rewrite Hx. reflexivity.
Qed.

(** X12: [removeAction] on a non-empty id returns whether some row had the
    id; afterwards no row has it, the rows under other ids are found as
    before, and users and files are untouched. *)
Theorem removeAction_removes_exactly (i : string) (w : World) :
  i <> "" ->
  exists w' : World,
    removeAction i w = (Returned (existsb (has_id i) (actions w)), w')
    /\ find (has_id i) (actions w') = None
    /\ (forall j : string,
           j <> i ->
           find (has_id j) (actions w') = find (has_id j) (actions w))
    /\ users w' = users w
    /\ files w' = files w.
Proof.
  intros Hi. apply String.eqb_neq in Hi. eexists. split.
  - unfold removeAction, bind, try_catch, actionsRepo_delete, ret.
    rewrite Hi, affected_zero.
    destruct (existsb (has_id i) (actions w)); reflexivity.
  - cbn [actions with_actions users files].
    split; [apply find_after_delete|].
    split; [intros j Hj; apply find_other_after_delete; exact Hj|].
    split; reflexivity.
Qed.

(** X13: [recordAction] by a caller with a row in the users table, under
    an id no action has, stores one action, found under that id: it
    belongs to the caller, carries the given time and the
    type, component and url of the request, and its value is the request's
    value, or [null] when that is absent or the empty string; the rows
    under other ids are found as before. *)
Theorem recordAction_stores (user_ : User) (dto : ActionRecordDTO)
        (newId : string) (now : Z) (w : World) :
  existsb (has_username (username user_)) (users w) = true ->
  find (has_id newId) (actions w) = None ->
  exists (w' : World) (a : Action),
    recordAction user_ dto newId now w = (Returned tt, w')
    /\ find (has_id newId) (actions w') = Some a
    /\ id a = newId /\ user a = username user_ /\ performedAt a = now
    /\ type a = rec_type dto /\ component a = rec_component dto
    /\ url a = rec_url dto
    /\ (truthy (rec_value dto) = true -> value a = rec_value dto)
    /\ (truthy (rec_value dto) = false -> value a = None)
    /\ (forall j : string,
           j <> newId ->
           find (has_id j) (actions w') = find (has_id j) (actions w)).
Proof.
  intros Hrow Hf. eexists. eexists.
  split; [apply recordAction_fresh; assumption|].
  cbn [actions with_actions].
  split; [apply find_app_new; [exact Hf | apply String.eqb_refl]|].
  cbn [id user performedAt type component url value].
  repeat (split; [reflexivity|]).
  split; [intros Ht; rewrite Ht; reflexivity|].
  split; [intros Ht; rewrite Ht; reflexivity|].
  intros j Hj. apply find_app_other. unfold has_id. cbn [id].
  apply String.eqb_neq. congruence.
Qed.

(** X14: for a caller with a row in the users table, recording an action
    under a fresh, non-empty id and removing it again gives back the world
    as it was, and [removeAction] returns [true]. *)
Theorem recordAction_then_removeAction (user_ : User) (dto : ActionRecordDTO)
        (newId : string) (now : Z) (w : World) :
  existsb (has_username (username user_)) (users w) = true ->
  newId <> "" ->
  find (has_id newId) (actions w) = None ->
  fst (recordAction user_ dto newId now w) = Returned tt
  /\ removeAction newId (snd (recordAction user_ dto newId now w))
     = (Returned true, w).
Proof.
  intros Hrow Hi Hf. rewrite recordAction_fresh by assumption.
  split; [reflexivity|]. apply String.eqb_neq in Hi.
  cbn [snd]. unfold removeAction, bind, try_catch, actionsRepo_delete, ret.
  rewrite Hi, affected_zero. cbn [actions with_actions].
  rewrite existsb_app. simpl. unfold has_id at 2. cbn [id].
  rewrite String.eqb_refl, orb_true_r. simpl.
  rewrite filter_app. simpl. unfold has_id at 2. cbn [id].
  rewrite String.eqb_refl. simpl. rewrite app_nil_r.
  rewrite delete_absent by exact Hf.
  unfold with_actions. cbn [users files uncaught]. destruct w; reflexivity.
Qed.

(** X15: an action recorded, by a caller with a row in the users table,
    later than every stored one is the first that [selectActions] returns,
    for any limit from 1 up to the largest integer a JavaScript number
    holds exactly and any search its user passes. *)
Theorem recordAction_then_selectActions (user_ : User)
        (dto : ActionRecordDTO) (newId : string) (now : Z)
        (filterDTO : ActionsFilterDTO) (w : World) :
  existsb (has_username (username user_)) (users w) = true ->
  find (has_id newId) (actions w) = None ->
  (forall b : Action, In b (actions w) -> (performedAt b < now)%Z) ->
  0 < limit filterDTO ->
  (Z.of_nat (limit filterDTO) <= max_safe_integer)%Z ->
  (forall s : string,
      search filterDTO = Some s -> s <> "" ->
      like ("%" ++ s ++ "%") (username user_) = true) ->
  exists (w' : World) (a : Action) (rest : list Action),
    recordAction user_ dto newId now w = (Returned tt, w')
    /\ selectActions filterDTO w' = (Returned (a :: rest), w')
    /\ id a = newId /\ user a = username user_ /\ performedAt a = now.
Proof.
  intros Hrow Hf Hlate Hlimit Hsafe Hsearch.
  assert (Hmax : (Z.of_nat (limit filterDTO) <= max_limit)%Z)
    by (unfold max_safe_integer, max_limit in *; lia).
  set (a := mkAction newId (rec_type dto) (rec_component dto)
                     (if truthy (rec_value dto) then rec_value dto else None)
                     (rec_url dto) now (username user_)).
  assert (Hq : qualifies filterDTO a = true).
  { unfold qualifies. destruct (search filterDTO) as [s|] eqn:Hs;
      [|reflexivity].
    cbn [truthy]. destruct (s =? "") eqn:He; [reflexivity|].
    simpl. apply Hsearch; [reflexivity|]. now apply String.eqb_neq. }
  exists (with_actions w (actions w ++ [a])), a,
    (firstn (limit filterDTO - 1)
            (order_desc (filter (qualifies filterDTO) (actions w)))).
  split; [apply recordAction_fresh; assumption|].
  split; [|repeat split].
  rewrite selectActions_run. cbn [actions with_actions].
  apply Z.ltb_ge in Hmax. rewrite Hmax.
  rewrite filter_app. simpl. rewrite Hq.
  rewrite order_desc_latest_last.
  - destruct (limit filterDTO) as [|n]; [lia|].
    simpl. rewrite Nat.sub_0_r. reflexivity.
  - intros b Hb. apply filter_In in Hb. destruct Hb as [Hb _].
    simpl. apply Hlate. exact Hb.
Qed.

(** X16: the empty search term: [selectUsers] returns the whole users
    table, and [selectActions] returns what it returns with no search. *)
Theorem empty_search_term (n : nat) (w : World) :
  selectUsers "" w = (Returned (users w), w)
  /\ selectActions (mkActionsFilterDTO n (Some "")) w
     = selectActions (mkActionsFilterDTO n None) w.
Proof.
  split; [|reflexivity].
  unfold selectUsers, try_catch, usersRepo_find_like.
  assert (Hall : filter (fun r => like ("%" ++ "" ++ "%") (username r))
                        (users w) = users w).
  { induction (users w) as [|r l IH]; [reflexivity|].
    cbn [filter]. rewrite (like_plain_includes "" (username r) eq_refl).
    assert (includes (username r) "" = true) as ->
        by (destruct (username r); reflexivity).
    f_equal. exact IH. }
  rewrite Hall. reflexivity.
Qed.

Lemma filter_keeps_unique_ids (f : Action -> bool) (l : list Action) :
  NoDup (map id l) -> NoDup (map id (filter f l)).
Proof.
  induction l as [|a l IH]; simpl; intros Hnd; [constructor|].
  inversion Hnd as [|? ? Ha Hl]; subst.
  destruct (f a); simpl; [|auto].
  constructor; [|auto]. intros Hin. apply Ha.
  apply in_map_iff in Hin. destruct Hin as [b [Hb Hin]].
  apply filter_In in Hin. apply in_map_iff. exists b. tauto.
Qed.

(** X17: [recordAction], under whatever id, and [removeAction] keep the
    ids of the actions table unique. *)
Theorem actions_keep_unique_ids (user_ : User) (dto : ActionRecordDTO)
        (newId i : string) (now : Z) (w : World) :
  unique_ids w ->
  unique_ids (snd (recordAction user_ dto newId now w))
  /\ unique_ids (snd (removeAction i w)).
Proof.
  intros Hu. unfold unique_ids in *. split.
  - unfold recordAction, try_catch, actionsRepo_insert. cbn [id user].
    rewrite existsb_find.
    destruct (find (has_id newId) (actions w)) eqn:Hf; [exact Hu|].
    destruct (existsb (has_username (username user_)) (users w));
      [|exact Hu].
    cbn [negb snd actions with_actions]. rewrite map_app. simpl.
    apply NoDup_rev in Hu. rewrite <- rev_involutive. apply NoDup_rev.
    rewrite rev_app_distr. simpl. constructor; [|exact Hu].
    rewrite <- in_rev. apply find_none_id. exact Hf.
  - unfold removeAction, bind, try_catch, actionsRepo_delete, ret.
    destruct (i =? ""); [exact Hu|].
    destruct (length (filter (has_id i) (actions w)) =? 0)%nat;
      cbn [snd actions with_actions]; apply filter_keeps_unique_ids;
      exact Hu.
Qed.

(** X18: on a table with unique ids, for a non-empty id that some action
    has, the [removeAction] of the controller's test and the service's end
    alike: both return [true] and leave the same table. *)
Theorem mock_removeAction_agrees (i : string) (w : World) (a : Action) :
  i <> "" ->
  unique_ids w ->
  find (has_id i) (actions w) = Some a ->
  mock_removeAction i w = removeAction i w
  /\ fst (removeAction i w) = Returned true.
Proof.
  intros Hid Hu Hf. apply String.eqb_neq in Hid.
  assert (Hex : existsb (has_id i) (actions w) = true)
    by (rewrite existsb_find, Hf; reflexivity).
  assert (Hrun : removeAction i w
                 = (Returned true,
                    with_actions w
                      (filter (fun x => negb (has_id i x)) (actions w)))).
  { unfold removeAction, bind, try_catch, actionsRepo_delete, ret.
    rewrite Hid, affected_zero, Hex. reflexivity. }
  rewrite Hrun. split; [|reflexivity].
  unfold mock_removeAction. rewrite Hf. f_equal. f_equal.
  unfold unique_ids in Hu. clear Hrun Hex. revert Hu Hf.
  induction (actions w) as [|x l IH]; simpl; [discriminate|].
  intros Hnd Hfind. inversion Hnd as [|? ? Hx Hl]; subst.
  destruct (has_id i x) eqn:Hi; simpl.
  - symmetry. apply delete_absent. apply find_none_id.
    unfold has_id in Hi. apply String.eqb_eq in Hi. congruence.
  - f_equal. apply IH; assumption.
Qed.

(** ** The superuser *)

Section SuperuserProperties.

Context {bcrypt : Bcrypt} {jwtService : JwtService}.
Variable configService : ConfigService.

(** X19: whatever the users table holds, the configured superuser pair
    always gets a token for the superuser's name; the table only decides
    whether the token comes with the ['admin'] marker. *)
Theorem superuser_never_locked_out (c : AuthCredentialsDTO) (w : World) :
  superuser_match configService c = true ->
  exists r : LoginResult,
    login configService c w = (Returned r, w)
    /\ jwt r = signJWT (SUPERUSER configService)
    /\ (privilege r = Some "admin" <-> stored_match w c = false).
Proof.
  intros Hs. pose proof Hs as Hname. unfold superuser_match in Hname.
  apply andb_true_iff in Hname. destruct Hname as [Hname _].
  apply String.eqb_eq in Hname.
  rewrite login_paths, Hs. destruct (stored_match w c); eexists;
    (split; [reflexivity|]); cbn [jwt privilege]; rewrite Hname;
    (split; [reflexivity|]); split; intros H; try reflexivity;
    discriminate.
Qed.

End SuperuserProperties.

(** * Runs on the sample world *)

Import Sample.

(** A user registered under the superuser's name logs in with the
    superuser's password, which the stored hash rejects. *)
Lemma login_wrong_password_superuser :
  bcrypt_compare "toor" (bcrypt_hash (reg_pass root_pw1) 9 "salt") = false
  /\ fst (register root_pw1 "salt" empty) = Returned tt
  /\ fst (login configService (mkAuthCredentialsDTO "root" "toor")
                (snd (register root_pw1 "salt" empty)))
     = Returned (mkLoginResult "jwt:root" (Some "admin")).
Proof. repeat split. Qed.

Lemma login_after_register_witness :
  register carol "salt" world
  = (Returned tt, snd (register carol "salt" world))
  /\ fst (login configService (mkAuthCredentialsDTO "carol" "pw3")
                (snd (register carol "salt" world)))
     = Returned (mkLoginResult "jwt:carol" None)
  /\ fst (login configService (mkAuthCredentialsDTO "carol" "nope")
                (snd (register carol "salt" world)))
     = Thrown (UnauthorizedException "Check your credentials.").
Proof.
  destruct (@login_after_register _ _ configService carol "salt" world
              (snd (register carol "salt" world)) eq_refl) as [Hok Hwrong].
  split; [reflexivity|]. split.
  - exact (f_equal fst Hok).
  - exact (f_equal fst (Hwrong "nope" eq_refl)).
Defined.

Lemma register_twice_witness :
  find (has_username "carol") (users world) = None
  /\ exists w1 : World,
      register carol "salt" world = (Returned tt, w1)
      /\ register (mkUserRegisterDTO "carol" "other" "C" "P" "c@example.com")
                  "pepper" w1
         = (Thrown (ConflictException "Username carol is already in use."), w1)
      /\ length (filter (has_username "carol") (users w1)) = 1.
Proof.
  split; [reflexivity|].
  apply (@register_twice _ carol
           (mkUserRegisterDTO "carol" "other" "C" "P" "c@example.com")
           "salt" "pepper" world); reflexivity.
Defined.

(** The superuser's credentials, on an empty table and on one where
    somebody registered under the superuser's name with the same
    password: the second login carries no ['admin'] marker. *)
Lemma superuser_login_depends_on_table :
  superuser_match configService (mkAuthCredentialsDTO "root" "toor") = true
  /\ fst (login configService (mkAuthCredentialsDTO "root" "toor") empty)
     = Returned (mkLoginResult "jwt:root" (Some "admin"))
  /\ fst (register root_toor "salt" empty) = Returned tt
  /\ fst (login configService (mkAuthCredentialsDTO "root" "toor")
                (snd (register root_toor "salt" empty)))
     = Returned (mkLoginResult "jwt:root" None).
Proof. repeat split. Qed.

Lemma superuser_login_witness :
  stored_match world (mkAuthCredentialsDTO "root" "toor") = false
  /\ stored_match empty (mkAuthCredentialsDTO "root" "toor") = false
  /\ stored_match (snd (register root_toor "salt" empty))
                  (mkAuthCredentialsDTO "root" "toor") = true
  /\ login configService (mkAuthCredentialsDTO "root" "toor") world
     = (Returned (mkLoginResult "jwt:root" (Some "admin")), world)
  /\ fst (login configService (mkAuthCredentialsDTO "root" "toor") world)
     = fst (login configService (mkAuthCredentialsDTO "root" "toor") empty)
  /\ superuser_match configService (mkAuthCredentialsDTO "root" "toor") = true
  /\ login configService (mkAuthCredentialsDTO "root" "toor")
           (snd (register root_toor "salt" empty))
     = (Returned (mkLoginResult "jwt:root" None),
        snd (register root_toor "salt" empty)).
Proof.
  destruct (@superuser_login _ _ configService
              (mkAuthCredentialsDTO "root" "toor"))
    as [Honly [Hrun [Hsame Hstored]]].
  split; [reflexivity|]. split; [reflexivity|]. split; [reflexivity|].
  split; [|split; [|split]].
  - exact (Hrun world eq_refl).
  - exact (Hsame world empty eq_refl eq_refl).
  - exact (Honly world world _ (Hrun world eq_refl) eq_refl).
  - exact (Hstored (snd (register root_toor "salt" empty)) eq_refl).
Defined.

(** A caller registered under the empty username submits a username that
    another user holds: the [UPDATE] is refused, nothing is written and
    the error is not [Conflict]. *)
Lemma editInfo_empty_username_refused :
  "bob" <> username anon
  /\ existsb (has_username "bob") (users crowd) = true
  /\ find (has_username (username anon)) (users crowd) = Some anon
  /\ editInfo anon (mkInfoEditDTO "bob" "Nomen" "Nescio" "n@example.com")
              crowd
     = (Thrown (InternalServerErrorException
                  "Empty criteria(s) are not allowed for the update method."),
        crowd).
Proof. repeat split. discriminate. Qed.

Lemma editInfo_conflict_persists_witness :
  username alice <> ""
  /\ "bob" <> username alice
  /\ existsb (has_username "bob") (users world) = true
  /\ find (has_username (username alice)) (users world) = Some alice
  /\ exists w' : World,
      editInfo alice (mkInfoEditDTO "bob" "Alicia" "Dow" "a@example.com") world
      = (Thrown (ConflictException "Username bob is already in use."), w')
      /\ find (has_username "alice") (users w')
         = Some (mkUser "alice" (pass alice) "Alicia" "Dow" "a@example.com"
                        None)
      /\ forall k : string,
          k <> "alice" ->
          find (has_username k) (users w') = find (has_username k) (users world).
Proof.
  assert (Hname : username alice <> "") by discriminate.
  assert (Hne : "bob" <> username alice) by discriminate.
  split; [exact Hname|]. split; [exact Hne|].
  split; [reflexivity|]. split; [reflexivity|].
  exact (@editInfo_conflict_persists _ alice alice
           (mkInfoEditDTO "bob" "Alicia" "Dow" "a@example.com") world
           Hname Hne eq_refl eq_refl).
Defined.

(** A caller registered under the empty username: submitting the own
    username does not succeed, and submitting one that another user holds
    does not give [Conflict]. *)
Lemma editInfo_own_empty_username_fails :
  edit_username (mkInfoEditDTO "" "Nomen" "Nescio" "n@example.com")
  = username anon
  /\ find (has_username (username anon)) (users crowd) = Some anon
  /\ editInfo anon (mkInfoEditDTO "" "Nomen" "Nescio" "n@example.com") crowd
     = (Thrown (InternalServerErrorException
                  "Empty criteria(s) are not allowed for the update method."),
        crowd)
  /\ "alice" <> username anon
  /\ existsb (has_username "alice") (users crowd) = true
  /\ fst (editInfo anon
                   (mkInfoEditDTO "alice" "Nomen" "Nescio" "n@example.com")
                   crowd)
     = Thrown (InternalServerErrorException
                 "Empty criteria(s) are not allowed for the update method.").
Proof. repeat split. discriminate. Qed.

Lemma editInfo_conflict_iff_witness :
  username alice <> ""
  /\ edit_username (mkInfoEditDTO "alice" "Alicia" "Dow" "a@example.com")
     = username alice
  /\ find (has_username (username alice)) (users world) = Some alice
  /\ fst (editInfo alice (mkInfoEditDTO "alice" "Alicia" "Dow" "a@example.com")
                   world)
     = Returned (mkLoginResult "jwt:alice" None)
  /\ find (has_username "alice")
          (users (snd (editInfo alice
                         (mkInfoEditDTO "alice" "Alicia" "Dow" "a@example.com")
                         world)))
     = Some (mkUser "alice" (pass alice) "Alicia" "Dow" "a@example.com" None)
  /\ username anon = ""
  /\ editInfo anon (mkInfoEditDTO "dave" "Nomen" "Nescio" "n@example.com")
              crowd
     = (Thrown (InternalServerErrorException
                  "Empty criteria(s) are not allowed for the update method."),
        crowd).
Proof.
  assert (Hname : username alice <> "") by discriminate.
  destruct (@editInfo_conflict_iff _ alice
              (mkInfoEditDTO "alice" "Alicia" "Dow" "a@example.com") world)
    as [Hfull _].
  destruct (Hfull Hname) as [_ Hown].
  destruct (Hown eq_refl) as [Hret Hrow].
  destruct (@editInfo_conflict_iff _ anon
              (mkInfoEditDTO "dave" "Nomen" "Nescio" "n@example.com") crowd)
    as [_ Hempty].
  split; [exact Hname|]. split; [reflexivity|]. split; [reflexivity|].
  split; [exact Hret|]. split; [exact (Hrow alice eq_refl)|].
  split; [reflexivity | exact (Hempty eq_refl)].
Defined.

(** An empty current password that the stored hash rejects: [changePass]
    does not verify it, returns, and replaces the hash. *)
Lemma changePass_empty_current_password :
  find (has_username (username alice)) (users world) = Some alice
  /\ bcrypt_compare "" (pass alice) = false
  /\ fst (changePass alice (mkPassChangeDTO (Some "") "pw9") "salt" world)
     = Returned tt
  /\ find (has_username "alice")
          (users (snd (changePass alice (mkPassChangeDTO (Some "") "pw9")
                                  "salt" world)))
     = Some (mkUser "alice" (bcrypt_hash "pw9" 9 "salt") "Alice" "Doe"
                    "alice@example.com" None).
Proof. repeat split. Qed.

Lemma changePass_verifies_and_persists_witness :
  find (has_username (username alice)) (users world) = Some alice
  /\ changePass alice (mkPassChangeDTO (Some "guess") "pw9") "salt" world
     = (Thrown (ConflictException "Invalid current password."), world)
  /\ exists w' : World,
      changePass alice (mkPassChangeDTO (Some "pw1") "pw9") "salt" world
      = (Returned tt, w')
      /\ find (has_username "alice") (users w')
         = Some (set_pass alice (bcrypt_hash "pw9" 9 "salt")).
Proof.
  split; [reflexivity|]. split.
  - destruct (@changePass_verifies_and_persists _ alice
                (mkPassChangeDTO (Some "guess") "pw9") "salt" world eq_refl)
      as [Hrej _].
    exact (Hrej "guess" eq_refl eq_refl eq_refl).
  - destruct (@changePass_verifies_and_persists _ alice
                (mkPassChangeDTO (Some "pw1") "pw9") "salt" world eq_refl)
      as [_ Hacc].
    destruct (Hacc (or_intror (ex_intro _ "pw1" (conj eq_refl eq_refl))))
      as [w' [Hrun [Hrow _]]].
    exists w'. split; [exact Hrun | exact Hrow].
Defined.



(** A search in capitals misses the user whose name has the same letters
    in lower case. *)
Lemma selectUsers_is_case_sensitive :
  In alice (users world)
  /\ includes_ignoring_case (username alice) "ALICE" = true
  /\ selectUsers "ALICE" world = (Returned [], world).
Proof. repeat split. now left. Qed.

Lemma selectUsers_like_pattern_witness :
  plain "lic" = true
  /\ selectUsers "lic" world = (Returned [alice], world)
  /\ (In bob [alice]
      <-> In bob (users world)
          /\ exists pre post : string, username bob = pre ++ "lic" ++ post).
Proof.
  destruct (@selectUsers_like_pattern "lic" world)
    as [found [Hrun [Hfound Hplain]]].
  split; [reflexivity|]. split; [reflexivity|].
  assert (Hlist : found = [alice]) by (rewrite Hfound; reflexivity).
  rewrite <- Hlist. exact (Hplain eq_refl bob).
Defined.

(** A search for [_] returns the actions of every user, none of whom has
    an underscore in the name; and the limit 0 returns all the actions. *)
Lemma selectActions_underscore_matches_all :
  selectActions (mkActionsFilterDTO 5 (Some "_")) world
  = (Returned [scroll; input; click], world)
  /\ includes (user scroll) "_" = false
  /\ includes (user input) "_" = false
  /\ includes (user click) "_" = false
  /\ selectActions (mkActionsFilterDTO 0 None) world
     = (Returned [scroll; input; click], world).
Proof. repeat split. Qed.

Lemma selectActions_newest_first_witness :
  (Z.of_nat (limit (mkActionsFilterDTO 1 (Some "ali"))) <= max_safe_integer)%Z
  /\ 0 < limit (mkActionsFilterDTO 1 (Some "ali"))
  /\ search (mkActionsFilterDTO 1 (Some "ali")) = Some "ali"
  /\ "ali" <> ""
  /\ plain "ali" = true
  /\ In scroll [scroll]
  /\ selectActions (mkActionsFilterDTO 1 (Some "ali")) world
     = (Returned [scroll], world)
  /\ exists pre post : string, user scroll = pre ++ "ali" ++ post.
Proof.
  assert (Hmax : (Z.of_nat (limit (mkActionsFilterDTO 1 (Some "ali")))
                  <= max_safe_integer)%Z)
    by (simpl; unfold max_safe_integer; lia).
  assert (Hpos : 0 < limit (mkActionsFilterDTO 1 (Some "ali")))
    by (simpl; lia).
  destruct (@selectActions_newest_first (mkActionsFilterDTO 1 (Some "ali"))
              world) as [Hwithin _].
  destruct (Hwithin Hmax)
    as [found [rest [Hrun [_ [_ [_ [_ [_ Hsearch]]]]]]]].
  assert (Hne : "ali" <> "") by discriminate.
  assert (Hfound : found = [scroll]).
  { assert (H : selectActions (mkActionsFilterDTO 1 (Some "ali")) world
                = (Returned [scroll], world)) by reflexivity.
    rewrite Hrun in H. congruence. }
  split; [exact Hmax|]. split; [exact Hpos|].
  split; [reflexivity|]. split; [exact Hne|]. split; [reflexivity|].
  split; [now left|]. split; [reflexivity|].
  assert (Hin : In scroll found) by (rewrite Hfound; now left).
  destruct (Hsearch "ali" eq_refl Hne scroll Hin) as [_ [_ Hplain]].
  exact (Hplain eq_refl).
Defined.


(** * Further runs on the sample world *)

Lemma sample_unique_usernames : unique_usernames world.
Proof.
  unfold unique_usernames. simpl. repeat constructor; simpl; intuition discriminate.
Qed.

Lemma sample_unique_ids : unique_ids world.
Proof.
  unfold unique_ids. simpl. repeat constructor; simpl; intuition discriminate.
Qed.

Lemma register_keeps_unique_usernames_witness :
  unique_usernames world
  /\ unique_usernames (snd (register carol "salt" world)).
Proof.
  split; [exact sample_unique_usernames|].
  exact (register_keeps_unique_usernames carol "salt" sample_unique_usernames).
Defined.


Lemma password_and_avatar_keep_unique_usernames_witness :
  unique_usernames world
  /\ unique_usernames
       (snd (changePass alice (mkPassChangeDTO None "pw9") "salt" world))
  /\ unique_usernames (snd (uploadAvatar alice "new.png" world))
  /\ unique_usernames (snd (removeAvatar bob world)).
Proof.
  split; [exact sample_unique_usernames|].
  destruct (password_and_avatar_keep_unique_usernames alice
              (mkPassChangeDTO None "pw9") "salt" "new.png"
              sample_unique_usernames) as [Hpass [Hupload _]].
  destruct (password_and_avatar_keep_unique_usernames bob
              (mkPassChangeDTO None "pw9") "salt" "new.png"
              sample_unique_usernames) as [_ [_ Hremove]].
  split; [exact Hpass|]. split; [exact Hupload | exact Hremove].
Defined.

Lemma register_leaves_other_logins_witness :
  "alice" <> reg_username carol
  /\ fst (login configService (mkAuthCredentialsDTO "alice" "pw1")
                (snd (register carol "salt" world)))
     = fst (login configService (mkAuthCredentialsDTO "alice" "pw1") world).
Proof.
  assert (Hne : "alice" <> reg_username carol) by discriminate.
  split; [exact Hne|].
  exact (register_leaves_other_logins configService carol "salt"
           (mkAuthCredentialsDTO "alice" "pw1") world Hne).
Defined.

Lemma signPassResetJWT_after_register_witness :
  register carol "salt" world
  = (Returned tt, snd (register carol "salt" world))
  /\ signPassResetJWT "carol" world
     = (Thrown (ConflictException "Provide a valid username."), world)
  /\ exists token : string,
      signPassResetJWT "carol" (snd (register carol "salt" world))
      = (Returned ("carol@example.com", token),
         snd (register carol "salt" world))
      /\ login configService (mkAuthCredentialsDTO "carol" "pw3")
               (snd (register carol "salt" world))
         = (Returned (mkLoginResult token None),
            snd (register carol "salt" world)).
Proof.
  destruct (@signPassResetJWT_after_register _ _ configService carol "salt"
              world (snd (register carol "salt" world)) eq_refl)
    as [Hbefore Hafter].
  split; [reflexivity|]. split; [exact Hbefore | exact Hafter].
Defined.

Lemma editInfo_moves_row_witness :
  username bob <> ""
  /\ (forall a : Action,
         In a (actions (with_actions world [click; scroll])) ->
         user a <> username bob)
  /\ "carol" <> username bob
  /\ existsb (has_username "carol")
             (users (with_actions world [click; scroll])) = false
  /\ find (has_username (username bob))
          (users (with_actions world [click; scroll])) = Some bob
  /\ exists w' : World,
      editInfo bob (mkInfoEditDTO "carol" "Robert" "Roe" "b@example.com")
               (with_actions world [click; scroll])
      = (Returned (mkLoginResult "jwt:carol" None), w')
      /\ find (has_username "bob") (users w') = None
      /\ login configService (mkAuthCredentialsDTO "carol" "pw2") w'
         = (Returned (mkLoginResult "jwt:carol" None), w').
Proof.
  assert (Hname : username bob <> "") by discriminate.
  assert (Hown : forall a : Action,
             In a (actions (with_actions world [click; scroll])) ->
             user a <> username bob).
  { intros a [<-|[<-|[]]]; discriminate. }
  assert (Hne : "carol" <> username bob) by discriminate.
  split; [exact Hname|]. split; [exact Hown|]. split; [exact Hne|].
  split; [reflexivity|]. split; [reflexivity|].
  destruct (@editInfo_moves_row _ _ configService bob bob
              (mkInfoEditDTO "carol" "Robert" "Roe" "b@example.com")
              (with_actions world [click; scroll])
              Hname Hown Hne eq_refl eq_refl)
    as [w' [Hrun [_ [Hold [_ Hlogin]]]]].
  exists w'. split; [exact Hrun|]. split; [exact Hold|].
  exact (Hlogin "pw2" eq_refl).
Defined.

Lemma changePass_then_login_witness :
  find (has_username (username alice)) (users world) = Some alice
  /\ changePass alice (mkPassChangeDTO (Some "pw1") "pw9") "salt" world
     = (Returned tt,
        snd (changePass alice (mkPassChangeDTO (Some "pw1") "pw9") "salt"
                        world))
  /\ fst (login configService (mkAuthCredentialsDTO "alice" "pw9")
                (snd (changePass alice (mkPassChangeDTO (Some "pw1") "pw9")
                                 "salt" world)))
     = Returned (mkLoginResult "jwt:alice" None)
  /\ stored_match
       (snd (changePass alice (mkPassChangeDTO (Some "pw1") "pw9") "salt"
                        world))
       (mkAuthCredentialsDTO "alice" "pw1") = false.
Proof.
  assert (Hrun : changePass alice (mkPassChangeDTO (Some "pw1") "pw9") "salt"
                            world
                 = (Returned tt,
                    snd (changePass alice (mkPassChangeDTO (Some "pw1") "pw9")
                                    "salt" world))) by reflexivity.
  destruct (@changePass_then_login _ _ configService alice alice
              (mkPassChangeDTO (Some "pw1") "pw9") "salt" world
              (snd (changePass alice (mkPassChangeDTO (Some "pw1") "pw9")
                               "salt" world))
              eq_refl Hrun)
    as [Hnew [Hold _]].
  split; [reflexivity|]. split; [reflexivity|]. split.
  - exact (f_equal fst Hnew).
  - exact (Hold "pw1" eq_refl).
Defined.

Lemma caller_without_row_witness :
  find (has_username "dave") (users world) = None
  /\ snd (changePass (mkUser "dave" "h" "Dave" "Moe" "d@example.com" None)
                     (mkPassChangeDTO None "pw9") "salt" world)
     = world
  /\ uploadAvatar (mkUser "dave" "h" "Dave" "Moe" "d@example.com" None)
                  "new.png" world
     = (Returned "new.png",
        with_users world
          (users world
           ++ [mkUser "dave" "h" "Dave" "Moe" "d@example.com"
                      (Some "new.png")])).
Proof.
  destruct (@caller_without_row _ _
              (mkUser "dave" "h" "Dave" "Moe" "d@example.com" None) world
              eq_refl)
    as [Hpass [_ Hupload]].
  split; [reflexivity|]. split.
  - exact (Hpass (mkPassChangeDTO None "pw9") "salt").
  - exact (Hupload "new.png" eq_refl).
Defined.

Lemma uploadAvatar_twice_witness :
  truthy (avatar alice) = false
  /\ "a.png" <> ""
  /\ exists w1 w2 : World,
      uploadAvatar alice "a.png" world = (Returned "a.png", w1)
      /\ uploadAvatar (set_avatar alice (Some "a.png")) "new.png" w1
         = (Thrown (ConflictException "Avatar has already been uploaded."), w2)
      /\ ~ In "uploads/new.png" (files w2).
Proof.
  assert (Hne : "a.png" <> "") by discriminate.
  split; [reflexivity|]. split; [exact Hne|].
  destruct (@uploadAvatar_twice alice "a.png" "new.png" world eq_refl Hne)
    as [w1 [w2 [Hfirst [_ [Hsecond [Hgone _]]]]]].
  exists w1, w2. split; [exact Hfirst|]. split; [exact Hsecond | exact Hgone].
Defined.


Lemma upload_remove_upload_witness :
  truthy (avatar alice) = false
  /\ "new.png" <> "b.png"
  /\ In "uploads/new.png" (files world)
  /\ exists w1 w2 w3 : World,
      uploadAvatar alice "new.png" world = (Returned "new.png", w1)
      /\ removeAvatar (set_avatar alice (Some "new.png")) w1
         = (Returned tt, w2)
      /\ uploadAvatar (set_avatar alice None) "b.png" w2
         = (Returned "b.png", w3)
      /\ find (has_username "alice") (users w3)
         = Some (mkUser "alice" (pass alice) "Alice" "Doe"
                        "alice@example.com" (Some "b.png"))
      /\ ~ In "uploads/new.png" (files w3).
Proof.
  assert (Hne : "new.png" <> "b.png") by discriminate.
  assert (Hin : In "uploads/new.png" (files world)) by (simpl; auto).
  split; [reflexivity|]. split; [exact Hne|]. split; [exact Hin|].
  exact (@upload_remove_upload alice "new.png" "b.png" world eq_refl Hne Hin).
Defined.

Lemma removeAction_removes_exactly_witness :
  "a1" <> ""
  /\ "a2" <> "a1"
  /\ exists w' : World,
      removeAction "a1" world = (Returned true, w')
      /\ find (has_id "a1") (actions w') = None
      /\ find (has_id "a2") (actions w') = Some scroll.
Proof.
  assert (Hid : "a1" <> "") by discriminate.
  assert (Hne : "a2" <> "a1") by discriminate.
  split; [exact Hid|]. split; [exact Hne|].
  destruct (@removeAction_removes_exactly "a1" world Hid)
    as [w' [Hrun [Hgone [Hothers _]]]].
  exists w'. split; [exact Hrun|]. split; [exact Hgone|].
  rewrite (Hothers "a2" Hne). reflexivity.
Defined.

Lemma recordAction_stores_witness :
  existsb (has_username (username alice)) (users world) = true
  /\ find (has_id "a4") (actions world) = None
  /\ truthy (rec_value (mkActionRecordDTO INPUT "<input>" (Some "")
                                          "http://guessmygeo.com")) = false
  /\ exists (w' : World) (a : Action),
      recordAction alice
                   (mkActionRecordDTO INPUT "<input>" (Some "")
                                      "http://guessmygeo.com")
                   "a4" 40 world
      = (Returned tt, w')
      /\ find (has_id "a4") (actions w') = Some a
      /\ user a = "alice"
      /\ value a = None.
Proof.
  split; [reflexivity|]. split; [reflexivity|]. split; [reflexivity|].
  destruct (@recordAction_stores alice
              (mkActionRecordDTO INPUT "<input>" (Some "")
                                 "http://guessmygeo.com")
              "a4" 40 world eq_refl eq_refl)
    as [w' [a [Hrun [Hfind [_ [Huser [_ [_ [_ [_ [_ [Hnull _]]]]]]]]]]]].
  exists w', a. split; [exact Hrun|]. split; [exact Hfind|].
  split; [exact Huser | exact (Hnull eq_refl)].
Defined.

Lemma recordAction_then_removeAction_witness :
  existsb (has_username (username alice)) (users world) = true
  /\ "a4" <> ""
  /\ find (has_id "a4") (actions world) = None
  /\ removeAction "a4"
       (snd (recordAction alice
               (mkActionRecordDTO CLICK "<button>" None
                                  "http://guessmygeo.com")
               "a4" 40 world))
     = (Returned true, world).
Proof.
  assert (Hid : "a4" <> "") by discriminate.
  split; [reflexivity|]. split; [exact Hid|]. split; [reflexivity|].
  destruct (@recordAction_then_removeAction alice
              (mkActionRecordDTO CLICK "<button>" None
                                 "http://guessmygeo.com")
              "a4" 40 world eq_refl Hid eq_refl) as [_ Hback].
  exact Hback.
Defined.

Lemma recordAction_then_selectActions_witness :
  existsb (has_username (username alice)) (users world) = true
  /\ find (has_id "a4") (actions world) = None
  /\ (forall b : Action, In b (actions world) -> (performedAt b < 40)%Z)
  /\ 0 < limit (mkActionsFilterDTO 2 (Some "ali"))
  /\ (Z.of_nat (limit (mkActionsFilterDTO 2 (Some "ali")))
      <= max_safe_integer)%Z
  /\ like "%ali%" (username alice) = true
  /\ exists (w' : World) (a : Action) (rest : list Action),
      recordAction alice
                   (mkActionRecordDTO CLICK "<button>" None
                                      "http://guessmygeo.com")
                   "a4" 40 world
      = (Returned tt, w')
      /\ selectActions (mkActionsFilterDTO 2 (Some "ali")) w'
         = (Returned (a :: rest), w')
      /\ id a = "a4".
Proof.
  assert (Hlate : forall b : Action,
             In b (actions world) -> (performedAt b < 40)%Z).
  { intros b [<-|[<-|[<-|[]]]]; reflexivity. }
  assert (Hlimit : 0 < limit (mkActionsFilterDTO 2 (Some "ali")))
    by (simpl; lia).
  assert (Hmax : (Z.of_nat (limit (mkActionsFilterDTO 2 (Some "ali")))
                  <= max_safe_integer)%Z)
    by (simpl; unfold max_safe_integer; lia).
  assert (Hsearch : forall s : string,
             search (mkActionsFilterDTO 2 (Some "ali")) = Some s ->
             s <> "" -> like ("%" ++ s ++ "%") (username alice) = true).
  { intros s Hs _. inversion Hs. reflexivity. }
  split; [reflexivity|]. split; [reflexivity|]. split; [exact Hlate|].
  split; [exact Hlimit|]. split; [exact Hmax|]. split; [reflexivity|].
  destruct (@recordAction_then_selectActions alice
              (mkActionRecordDTO CLICK "<button>" None
                                 "http://guessmygeo.com")
              "a4" 40 (mkActionsFilterDTO 2 (Some "ali")) world
              eq_refl eq_refl Hlate Hlimit Hmax Hsearch)
    as [w' [a [rest [Hrun [Hsel [Hid _]]]]]].
  exists w', a, rest. split; [exact Hrun|]. split; [exact Hsel | exact Hid].
Defined.

Lemma actions_keep_unique_ids_witness :
  unique_ids world
  /\ unique_ids
       (snd (recordAction alice
               (mkActionRecordDTO CLICK "<button>" None
                                  "http://guessmygeo.com")
               "a4" 40 world))
  /\ unique_ids (snd (removeAction "a1" world)).
Proof.
  split; [exact sample_unique_ids|].
  exact (@actions_keep_unique_ids alice
           (mkActionRecordDTO CLICK "<button>" None "http://guessmygeo.com")
           "a4" "a1" 40 world sample_unique_ids).
Defined.

Lemma mock_removeAction_agrees_witness :
  "a1" <> ""
  /\ unique_ids world
  /\ find (has_id "a1") (actions world) = Some click
  /\ mock_removeAction "a1" world = removeAction "a1" world
  /\ fst (removeAction "a1" world) = Returned true.
Proof.
  assert (Hid : "a1" <> "") by discriminate.
  split; [exact Hid|]. split; [exact sample_unique_ids|].
  split; [reflexivity|].
  exact (@mock_removeAction_agrees "a1" world click Hid sample_unique_ids
           eq_refl).
Defined.

Lemma superuser_never_locked_out_witness :
  superuser_match configService (mkAuthCredentialsDTO "root" "toor") = true
  /\ exists r : LoginResult,
      login configService (mkAuthCredentialsDTO "root" "toor") world
      = (Returned r, world)
      /\ jwt r = "jwt:root".
Proof.
  split; [reflexivity|].
  destruct (@superuser_never_locked_out bcrypt jwtService configService
              (mkAuthCredentialsDTO "root" "toor") world eq_refl)
    as [r [Hrun [Hjwt _]]].
  exists r. split; [exact Hrun | exact Hjwt].
Defined.
